(** * Tabular-data notebook: split, score, rank, prune, serialise

    A shallow embedding of the code cells of
    [prep_data/tabular_data/train_featurize_train_tabular_data.ipynb].
    The last section of the model is the one computation of the second
    notebook, which configures a distributed training job.

    The notebook is a sequence of calls into pandas, scikit-learn, NumPy and
    XGBoost.  The cells are translated statement by statement.  The library
    calls they make are modelled by what the libraries document (and, for
    [train_test_split], [sorted] and [DataFrame.drop], by what their
    implementations do); the numerical black boxes (model fitting, the
    random generator, number formatting) are operations of interfaces that
    the theorems quantify over.

    Part I is the model, in the order of the notebook; Part II proves the
    properties. *)

From Stdlib Require Import Ascii DecimalString DecimalPos DecimalZ QArith Qround Floats.
From stdpp Require Import base option list sorting gmap strings.
Close Scope Q_scope.
Set Warnings "-inexact-float".

(** * Part I.  The model *)

(** ** Numbers

    Scores, thresholds and table cells are NumPy/Python floating-point
    numbers.  The cells only ever compare them: [pair[1] <= threshold] in
    [remove_features], and [<] on the sort key inside [sorted]. *)

Class Number := {
  num : Type;
  num_le : num → num → bool;
  num_lt : num → num → bool;
}.

(** IEEE binary64, the semantics of a Python [float]. *)
Definition float_number : Number :=
  {| num := float; num_le := PrimFloat.leb; num_lt := PrimFloat.ltb |}.

(** Exact rationals: every finite float is one. *)
Definition Q_number : Number :=
  {| num := Q; num_le := Qle_bool; num_lt := λ a b, negb (Qle_bool b a) |}.

(** Whole numbers, used where numbers have to be printed and read back. *)
Definition Z_number : Number :=
  {| num := Z; num_le := Z.leb; num_lt := Z.ltb |}.

(** Python's [<] on the sort keys is a strict weak order when no key is a
    NaN: asymmetric, and its complement is transitive. *)
Class StrictWeakOrder (N : Number) : Prop := {
  num_lt_asym : ∀ a b : num, num_lt a b = true → num_lt b a = false;
  num_lt_negtrans : ∀ a b c : num,
    num_lt a b = false → num_lt b c = false → num_lt a c = false;
}.

(** ** Exceptions and outcomes *)

Inductive exn :=
  | KeyError      (* [DataFrame.drop]: a label is not a column *)
  | ValueError    (* scikit-learn's argument validation *)
  | IndexError    (* positional indexing out of bounds *)
  | NameError.    (* a reference that denotes no object of the store *)

Inductive outcome (A : Type) :=
  | Return (a : A)
  | Raise (e : exn).
Arguments Return {A} a.
Arguments Raise {A} e.

(** A computation that threads a state and may raise: a raised exception
    ends the computation and leaves the state as it was at that point. *)
Definition state (S A : Type) : Type := S → outcome A * S.

#[global] Instance state_ret {S} : MRet (state S) := λ A a s, (Return a, s).
#[global] Instance state_bind {S} : MBind (state S) := λ A B f m s,
  match m s with
  | (Return a, s') => f a s'
  | (Raise e, s') => (Raise e, s')
  end.

Definition raise {S A} (e : exn) : state S A := λ s, (Raise e, s).

(** The outcome of a computation that has no effect on the state. *)
Definition lift {S A} (o : outcome A) : state S A := λ s, (o, s).

(** ** pandas: [DataFrame] *)

(** A column label: the feature names are strings; the label frame built by
    [pd.DataFrame(data_set.target)] has the single integer column [0]. *)
Inductive label :=
  | Name (s : string)
  | Ordinal (i : Z).

#[global] Instance label_eq_dec : EqDecision label.
Proof. solve_decision. Defined.

Section pandas.
Context {N : Number}.

(** The column labels in column order, and the rows in row order, each row
    with its index label and its cells in column order. *)
Record DataFrame := {
  columns : list label;
  rows : list (nat * list num);
}.

Definition index (df : DataFrame) : list nat := (rows df).*1.
Definition values (df : DataFrame) : list (list num) := (rows df).*2.
Definition shape (df : DataFrame) : nat * nat :=
  (length (rows df), length (columns df)).

(** The cells of [row] at the positions where [mask] is true. *)
Fixpoint keep_cells {A} (mask : list bool) (row : list A) : list A :=
  match mask, row with
  | b :: mask, x :: row => if b then x :: keep_cells mask row else keep_cells mask row
  | _, _ => []
  end.

(** [df.drop(labels, axis=1)] with the default [inplace=False]: a new frame
    without the columns named in [labels]; [KeyError] when a label is not a
    column.  The frame [df] itself is not touched. *)
Definition df_drop (labels : list label) (df : DataFrame) : outcome DataFrame :=
  if forallb (λ l, bool_decide (l ∈ columns df)) labels then
    let mask := (λ c, bool_decide (c ∉ labels)) <$> columns df in
    Return {| columns := keep_cells mask (columns df);
              rows := (λ r, (r.1, keep_cells mask r.2)) <$> rows df |}
  else Raise KeyError.

(** [df.iloc[positions]]: the rows at the given positions, in the given
    order, index labels kept; [IndexError] out of bounds. *)
Definition df_iloc (positions : list nat) (df : DataFrame) : outcome DataFrame :=
  match mapM (λ i, rows df !! i) positions with
  | Some rs => Return {| columns := columns df; rows := rs |}
  | None => Raise IndexError
  end.

(** [pd.concat([left, right], axis=1)] for frames with one index: the rows
    side by side.  (For frames with different indexes pandas aligns the rows
    by label and fills the gaps; the model stops there.) *)
Definition concat_axis1 (left right : DataFrame) : option DataFrame :=
  if decide (index left = index right) then
    Some {| columns := columns left ++ columns right;
            rows := zip_with (λ l r, (l.1, l.2 ++ r.2)) (rows left) (rows right) |}
  else None.

(** *** The store of frames

    A Python variable holds a reference.  [remove_features] receives the
    frame by reference, so what it does to the caller's frame is read off
    the store. *)

Definition loc := positive.

Definition deref (l : loc) : state (gmap loc DataFrame) DataFrame := λ h,
  match h !! l with
  | Some df => (Return df, h)
  | None => (Raise NameError, h)
  end.

Definition alloc (df : DataFrame) : state (gmap loc DataFrame) loc := λ h,
  let l := fresh (dom h) in (Return l, <[l := df]> h).

(** The method call [data.drop(labels, axis=1)] on a reference: the result
    is a new object; the receiver is read, never written. *)
Definition drop_axis1 (data : loc) (labels : list label)
    : state (gmap loc DataFrame) loc :=
  df ← deref data;
  match df_drop labels df with
  | Return df' => alloc df'
  | Raise e => raise e
  end.

End pandas.

(** ** NumPy's global generator

    The cells pass no [random_state], so scikit-learn draws from the
    generator of the process, whose state every draw advances. *)

Class Generator := {
  RandomState : Type;
  (** [rng.permutation(n)]: a shuffled [range(n)]. *)
  rng_permutation : nat → state RandomState (list nat);
}.

Class GeneratorLaws (G : Generator) : Prop := {
  rng_permutation_returns : ∀ n g,
    ∃ p g', rng_permutation n g = (Return p, g') ∧ p ≡ₚ seq 0 n;
}.

(** ** Step 4 of Part 1: splitting *)

Section splitting.
Context {N : Number} {G : Generator}.

(** [ceil(test_size * n_samples)].  The product is exact here; Python rounds
    it to a binary64 float first.  For the fraction [0.33] of the notebook
    the two ceilings are the same number (up to some 10^14 rows); for other
    fractions they can differ by one, when the exact product is a whole
    number or just above one. *)
Definition n_test_of (test_size : Q) (n_samples : nat) : nat :=
  Z.to_nat (Qceiling (test_size * inject_Z (Z.of_nat n_samples))).

(** scikit-learn's [_validate_shuffle_split] for a float [test_size] and
    [train_size=None]: the fraction must lie strictly between 0 and 1, and
    the training part must not be empty. *)
Definition validate_shuffle_split (n_samples : nat) (test_size : Q)
    : outcome (nat * nat) :=
  if Qle_bool test_size 0 || Qle_bool 1 test_size then Raise ValueError
  else
    let n_test := n_test_of test_size n_samples in
    let n_train := n_samples - n_test in
    if bool_decide (n_train = 0) then Raise ValueError
    else Return (n_train, n_test).

(** [sklearn.model_selection.train_test_split(X, Y, test_size=test_size)]:
    the arrays must have one length; one permutation of the row positions is
    drawn; its first [n_test] positions select the test rows and the next
    [n_train] the training rows, of [X] and of [Y] alike. *)
Definition train_test_split (X Y : DataFrame) (test_size : Q)
    : state RandomState (DataFrame * DataFrame * DataFrame * DataFrame) :=
  if bool_decide (length (rows X) = length (rows Y)) then
    '(n_train, n_test) ← lift (validate_shuffle_split (length (rows X)) test_size);
    permutation ← rng_permutation (length (rows X));
    let ind_test := take n_test permutation in
    let ind_train := take n_train (drop n_test permutation) in
    X_train ← lift (df_iloc ind_train X);
    X_test ← lift (df_iloc ind_test X);
    Y_train ← lift (df_iloc ind_train Y);
    Y_test ← lift (df_iloc ind_test Y);
    mret (X_train, X_test, Y_train, Y_test)
  else raise ValueError.

(** The cell, for any two fractions:
<<
X_train, X_test, Y_train, Y_test = sklearn.model_selection.train_test_split(X, Y, test_size=0.33)
X_train, X_val, Y_train, Y_val = sklearn.model_selection.train_test_split(
    X_train, Y_train, test_size=0.33
)
>> *)
Definition split_cell (test_size validation_size : Q) (X Y : DataFrame)
    : state RandomState
        (DataFrame * DataFrame * DataFrame * DataFrame * DataFrame * DataFrame) :=
  '(X_train, X_test, Y_train, Y_test) ← train_test_split X Y test_size;
  '(X_train, X_val, Y_train, Y_val) ← train_test_split X_train Y_train validation_size;
  mret (X_train, X_val, X_test, Y_train, Y_val, Y_test).

(** The cell as the notebook has it. *)
Definition notebook_split_cell := split_cell (33 # 100) (33 # 100).

(** The arguments that [train_test_split] accepts. *)
Definition splittable (test_size : Q) (X Y : DataFrame) : Prop :=
  length (rows X) = length (rows Y) ∧
  Qle_bool test_size 0 = false ∧ Qle_bool 1 test_size = false ∧
  n_test_of test_size (length (rows X)) < length (rows X).

(** The arguments on which the two calls of the cell both succeed. *)
Definition cell_splittable (test_size validation_size : Q) (X Y : DataFrame) : Prop :=
  splittable test_size X Y ∧
  Qle_bool validation_size 0 = false ∧ Qle_bool 1 validation_size = false ∧
  n_test_of validation_size
    (length (rows X) - n_test_of test_size (length (rows X)))
  < length (rows X) - n_test_of test_size (length (rows X)).

(** [train], [val] and [test] partition the rows of [D]: the row counts add
    up, the rows together are the rows of [D], each as often as in [D], and
    when the index labels of [D] are distinct no label is in two parts. *)
Definition partitions (D train val test : DataFrame) : Prop :=
  length (rows train) + length (rows val) + length (rows test) = length (rows D) ∧
  rows train ++ rows val ++ rows test ≡ₚ rows D ∧
  (NoDup (index D) →
   (∀ i, i ∈ index train → i ∉ index val) ∧
   (∀ i, i ∈ index train → i ∉ index test) ∧
   (∀ i, i ∈ index val → i ∉ index test)).

End splitting.

(** *** Two runs

    Two runs of a cell draw from two generators (two processes, or the
    global generator seeded anew).  [R] relates the states of the two
    generators; the runs hand out the same draws when related states give
    the same permutation and go to related states, as the states of two
    generators seeded alike do. *)

Section two_runs.
Context (G1 G2 : Generator).
Variable R : @RandomState G1 → @RandomState G2 → Prop.

(** The two runs end alike: the same result or the same exception, in
    related states. *)
Definition agree {A} (r1 : outcome A * @RandomState G1)
    (r2 : outcome A * @RandomState G2) : Prop :=
  r1.1 = r2.1 ∧ R r1.2 r2.2.

Definition same_draws : Prop :=
  ∀ n g1 g2, R g1 g2 →
    agree (rng_permutation (Generator:=G1) n g1) (rng_permutation (Generator:=G2) n g2).

End two_runs.

(** ** Step 1 of Part 2: scoring

    The estimators of scikit-learn and XGBoost are black boxes: the cells
    are stated over any implementation of them. *)

Class Learners {N : Number} {G : Generator} := {
  (** [make_regression(n_samples=, n_features=, n_informative=, random_state=)]
      with an integer [random_state]: a sample [(X, y)] drawn from a
      generator of its own, seeded with that integer. *)
  make_regression : nat → nat → nat → nat → list (list num) * list num;
  (** A fitted [XGBRegressor()], and its [feature_importances_]. *)
  XGBRegressor : Type;
  xgb_fit : list (list num) → list num → XGBRegressor;
  xgb_feature_importances_ : XGBRegressor → list num;
  (** A fitted [KNeighborsRegressor()]. *)
  KNeighborsRegressor : Type;
  knn_fit : list (list num) → list num → KNeighborsRegressor;
  (** [permutation_importance(model, X, y, scoring=scoring).importances_mean];
      without [random_state] the shuffles come from the global generator. *)
  permutation_importance :
    KNeighborsRegressor → list (list num) → list num → string →
    state RandomState (list num);
}.

(** What the libraries document about their results.  [KNeighborsRegressor()]
    has [n_neighbors=5]: scoring it on a sample of fewer than five rows
    raises [ValueError] ("Expected n_neighbors <= n_samples"), so
    [permutation_importance] returns on samples of at least five rows
    only. *)
Class LearnersLaws {N : Number} {G : Generator} (L : Learners) : Prop := {
  make_regression_shape : ∀ n m i r,
    length (make_regression n m i r).1 = n ∧
    Forall (λ row, length row = m) (make_regression n m i r).1 ∧
    length (make_regression n m i r).2 = n;
  xgb_feature_importances_length : ∀ X y m,
    X ≠ [] → Forall (λ row, length row = m) X →
    length (xgb_feature_importances_ (xgb_fit X y)) = m;
  permutation_importance_returns : ∀ X y m scoring g,
    5 ≤ length X → Forall (λ row, length row = m) X →
    ∃ imp g', permutation_importance (knn_fit X y) X y scoring g = (Return imp, g') ∧
              length imp = m;
  permutation_importance_few_samples : ∀ X y scoring g,
    0 < length X < 5 →
    ∃ g', permutation_importance (knn_fit X y) X y scoring g = (Raise ValueError, g');
}.

Section scoring.
Context {N : Number} {G : Generator} {L : Learners}.

(** Step 1a:
<<
X_data, y_label = make_regression(
    n_samples=X_train.shape[0], n_features=X_train.shape[1], n_informative=10, random_state=1
)
xgboost_model = XGBRegressor()
xgboost_model.fit(X_data, y_label)

feature_importances_xgboost = xgboost_model.feature_importances_
>> *)
Definition feature_importances_xgboost_cell (X_train : DataFrame) : list num :=
  let '(X_data, y_label) :=
    make_regression (shape X_train).1 (shape X_train).2 10 1 in
  let xgboost_model := xgb_fit X_data y_label in
  xgb_feature_importances_ xgboost_model.

(** Step 1b:
<<
X_data, y_label = make_regression(
    n_samples=X_train.shape[0], n_features=X_train.shape[1], n_informative=10, random_state=1
)
k_nn_model = KNeighborsRegressor()
k_nn_model.fit(X_data, y_label)
feature_importances_permutations = permutation_importance(
    k_nn_model, X_data, y_label, scoring="neg_mean_squared_error"
).importances_mean
>> *)
Definition feature_importances_permutations_cell (X_train : DataFrame)
    : state RandomState (list num) :=
  let '(X_data, y_label) :=
    make_regression (shape X_train).1 (shape X_train).2 10 1 in
  let k_nn_model := knn_fit X_data y_label in
  permutation_importance k_nn_model X_data y_label "neg_mean_squared_error".

(** The loop that ends both cells and names each score after a column:
<<
for index, importance_score in enumerate(feature_importances):
    print("Feature: {}, Score: {}".format(X_train.columns[index], importance_score))
>>
    The result is the list of the printed (feature, score) pairs. *)
Definition print_scores (feature_importances : list num) (X_train : DataFrame)
    : outcome (list (label * num)) :=
  match
    mapM (λ '(index, importance_score),
            (λ feature, (feature, importance_score)) <$> columns X_train !! index)
         (imap pair feature_importances)
  with
  | Some printed => Return printed
  | None => Raise IndexError
  end.

(** The scores that a model fitted on the training split itself would have:
    what the text of the notebook announces ("importance scores for each
    feature"). *)
Definition importances_of_training_data (X_train Y_train : DataFrame) : list num :=
  xgb_feature_importances_ (xgb_fit (values X_train) (concat (values Y_train))).

End scoring.

(** ** Ranking

<<
def show_ranked_feature_importance_list(scores, data):
    lst = list(zip(data.columns, scores))
    ranked_lst = sorted(lst, key=lambda t: t[1], reverse=True)
    print(pd.DataFrame(ranked_lst, columns=["Feature", "Importance Score"]))
>> *)

Section ranking.
Context {N : Number}.

(** Python's [sorted] compares the keys with [<] only and is stable.  The
    model is the stable insertion of each element in front of the first
    element that is not smaller (CPython's sort inserts short runs the same
    way and merges long ones; when [<] is a strict weak order every stable
    sort returns the same list). *)
Fixpoint insert_by {A} (key : A → num) (x : A) (l : list A) : list A :=
  match l with
  | [] => [x]
  | y :: l' => if num_lt (key y) (key x) then y :: insert_by key x l' else x :: y :: l'
  end.

Fixpoint stable_sort {A} (key : A → num) (l : list A) : list A :=
  match l with
  | [] => []
  | x :: l' => insert_by key x (stable_sort key l')
  end.

(** [sorted(l, key=key, reverse=reverse)]: with [reverse=True] CPython
    reverses the list, sorts it, and reverses the result, so that elements
    with equal keys keep their original order. *)
Definition sorted {A} (l : list A) (key : A → num) (reverse : bool) : list A :=
  if reverse then list.reverse (stable_sort key (list.reverse l))
  else stable_sort key l.

(** The ranked list that the function prints. *)
Definition show_ranked_feature_importance_list (scores : list num)
    (data : DataFrame) : list (label * num) :=
  let lst := zip (columns data) scores in
  let ranked_lst := sorted lst (λ t, t.2) true in
  ranked_lst.

(** Two scores are tied when neither is smaller than the other. *)
Definition tied (s k : num) : Prop := num_lt s k = false ∧ num_lt k s = false.

#[global] Instance tied_dec s k : Decision (tied s k).
Proof. unfold tied. apply _. Defined.

(** [x] may stand before [y] in a list that ascends by [key]. *)
Definition ascending {A} (key : A → num) (x y : A) : Prop :=
  num_lt (key y) (key x) = false.

End ranking.

(** ** Step 2 of Part 2: pruning

<<
def remove_features(lst, data, threshold):
    '''
    Remove features found in lst from data iff its importance score is below threshold.
    '''
    features_to_remove = []
    for index, pair in enumerate(list(zip(data.columns, lst))):
        if pair[1] <= threshold:
            features_to_remove.append(pair[0])

    if features_to_remove:
        data.drop(features_to_remove, axis=1)
>> *)

Section pruning.
Context {N : Number}.

(** The loop: [zip] stops at the shorter of the two sequences. *)
Definition features_to_remove (lst : list num) (cols : list label)
    (threshold : num) : list label :=
  fold_left
    (λ acc (pair : label * num),
       if num_le pair.2 threshold then acc ++ [pair.1] else acc)
    (zip cols lst) [].

Definition remove_features (lst : list num) (data : loc) (threshold : num)
    : state (gmap loc DataFrame) unit :=
  df ← deref data;
  let to_remove := features_to_remove lst (columns df) threshold in
  match to_remove with
  | [] => mret ()
  | _ :: _ => _ ← drop_axis1 data to_remove; mret ()
  end.

(** The cell that prunes the three splits with one score list:
<<
remove_features(lst=feature_importances_xgboost, data=X_train, threshold=threshold)
remove_features(lst=feature_importances_xgboost, data=X_val, threshold=threshold)
remove_features(lst=feature_importances_xgboost, data=X_test, threshold=threshold)
>> *)
Definition prune_cell (feature_importances : list num) (threshold : num)
    (X_train X_val X_test : loc) : state (gmap loc DataFrame) unit :=
  _ ← remove_features feature_importances X_train threshold;
  _ ← remove_features feature_importances X_val threshold;
  remove_features feature_importances X_test threshold.

(** The columns that are to stay according to the docstring of
    [remove_features] and the text above it ("prune features that have the
    importance score less than or equal to a threshold value"): those whose
    score is above the threshold, in column order. *)
Definition kept_features (lst : list num) (cols : list label)
    (threshold : num) : list label :=
  (filter (λ pair : label * num, num_le pair.2 threshold = false) (zip cols lst)).*1.

End pruning.

(** ** Step 1 of Part 3: serialising

<<
pd.concat([Y_train, X_train], axis=1).to_csv(
    os.path.join(data_dir, "train.csv"), header=False, index=False
)
pd.concat([Y_val, X_val], axis=1).to_csv(
    os.path.join(data_dir, "validation.csv"), header=False, index=False
)
>> *)

Definition comma : ascii := ","%char.
Definition newline : ascii := "010"%char.

(** [sep.join(fields)] *)
Fixpoint join (sep : string) (fields : list string) : string :=
  match fields with
  | [] => ""
  | [field] => field
  | field :: fields => field +:+ sep +:+ join sep fields
  end.

(** [c in s] *)
Fixpoint mentions (c : ascii) (s : string) : bool :=
  match s with
  | EmptyString => false
  | String c' s => Ascii.eqb c' c || mentions c s
  end.

(** [s.split(sep)] for a separator of one character: never empty. *)
Fixpoint split_on (sep : ascii) (s : string) : list string :=
  match s with
  | EmptyString => [EmptyString]
  | String c s =>
      if Ascii.eqb c sep then EmptyString :: split_on sep s
      else match split_on sep s with
           | [] => [String c EmptyString]
           | field :: fields => String c field :: fields
           end
  end.

(** [s.splitlines()] for the line end [\n]: a line end closes a line, and
    text after the last line end is a line of its own. *)
Fixpoint splitlines (s : string) : list string :=
  match s with
  | EmptyString => []
  | String c s =>
      if Ascii.eqb c newline then EmptyString :: splitlines s
      else match splitlines s with
           | [] => [String c EmptyString]
           | line :: lines => String c line :: lines
           end
  end.

Section serialising.
Context {N : Number}.
(** How pandas writes a number, and how a reader reads one. *)
Variable format_num : num → string.
Variable parse_num : string → option num.

(** One line of the file: the cells of a row, written and joined by commas. *)
Definition csv_line (cells : list num) : string :=
  join (String comma "") (format_num <$> cells).

(** [df.to_csv(path, header=False, index=False)]: the text of the file, a
    line for each row and nothing else. *)
Definition to_csv (df : DataFrame) : string :=
  foldr (λ r text, csv_line r.2 +:+ String newline text) "" (rows df).

(** The texts of [train.csv] and [validation.csv]. *)
Definition write_csv_cell (X_train Y_train X_val Y_val : DataFrame)
    : option (string * string) :=
  train ← concat_axis1 Y_train X_train;
  validation ← concat_axis1 Y_val X_val;
  Some (to_csv train, to_csv validation).

(** Modelled from the spec: the reader of the round-trip property
    ("parsing it back, assuming label-first column order"); the repository
    has none, its files go to the training service.  Each line is cut at the
    commas, each field is read as a number, the first is the label and the
    others are the features. *)
Definition read_label_first (text : string) : option (list (num * list num)) :=
  mapM (λ line,
          cells ← mapM parse_num (split_on comma line);
          match cells with
          | label :: features => Some (label, features)
          | [] => None
          end)
       (splitlines text).

(** [text] is the file of the label frame [Y] and the feature frame [X]:
    one line for each row, the label first and then the features in column
    order, joined by commas, no header line; and read back label first it
    gives the labels of [Y] and the features of [X]. *)
Definition written_label_first (Y X : DataFrame) (text : string) : Prop :=
  splitlines text
    = zip_with (λ y x, csv_line (y.2 ++ x.2)) (rows Y) (rows X) ∧
  length (splitlines text) = length (rows X) ∧
  ∃ parsed, read_label_first text = Some parsed ∧
            (λ p, [p.1]) <$> parsed = values Y ∧ parsed.*2 = values X.

End serialising.

(** ** The cells in sequence

    The four code cells one after the other, as a run of the notebook from
    the split to the files.  The names [X_train], [X_val] and [X_test] hold
    references to the frames that the split built; the pruning cell is
    handed those references, and the serialising cell reads the frames
    behind them.  The pruning cell is called with the scores of the XGBoost
    approach. *)

Section notebook.
Context {N : Number} {G : Generator} {L : Learners}.
Variable format_num : num → string.

(** A cell that only draws from the generator, and a cell that only touches
    the store, as steps of the whole run. *)
Definition on_rng {A} (m : state RandomState A)
    : state (RandomState * gmap loc DataFrame) A :=
  λ w, let '(o, g') := m w.1 in (o, (g', w.2)).

Definition on_heap {A} (m : state (gmap loc DataFrame) A)
    : state (RandomState * gmap loc DataFrame) A :=
  λ w, let '(o, h') := m w.2 in (o, (w.1, h')).

Definition notebook_cells (X Y : DataFrame) (threshold : num)
    : state (RandomState * gmap loc DataFrame) (option (string * string)) :=
  '(X_train_, X_val_, X_test_, Y_train, Y_val, Y_test) ←
    on_rng (notebook_split_cell X Y);
  X_train ← on_heap (alloc X_train_);
  X_val ← on_heap (alloc X_val_);
  X_test ← on_heap (alloc X_test_);
  data ← on_heap (deref X_train);
  let feature_importances_xgboost := feature_importances_xgboost_cell data in
  _ ← on_heap (prune_cell feature_importances_xgboost threshold X_train X_val X_test);
  train ← on_heap (deref X_train);
  validation ← on_heap (deref X_val);
  mret (write_csv_cell format_num train Y_train validation Y_val).

End notebook.

(** ** The cells around the pipeline *)

(** *** Setup

<<
def get_sagemaker_version():
    "Return the version of 'sagemaker' in your kernel or -1 if 'sagemaker' is not installed"
    for i in pkg_resources.working_set:
        if i.key == "sagemaker":
            return "%s==%s" % (i.key, i.version)
    return -1
>> *)

(** An installed distribution, as far as the function reads it. *)
Record Distribution := {
  key : string;
  version : string;
}.

(** The function returns a string or an integer. *)
Inductive str_or_int :=
  | Str (s : string)
  | Int (i : Z).

Fixpoint get_sagemaker_version (working_set : list Distribution) : str_or_int :=
  match working_set with
  | [] => Int (-1)
  | i :: working_set =>
      if String.eqb (key i) "sagemaker" then Str (key i +:+ "==" +:+ version i)
      else get_sagemaker_version working_set
  end.

(** *** Step 1 of Part 1: selecting the dataset

<<
data_sets = {"diabetes": "load_diabetes()", "california": "fetch_california_housing()"}

choosen_data_set = "california"
assert choosen_data_set in data_sets.keys()
>> *)

Definition data_sets : gmap string string :=
  {[ "diabetes" := "load_diabetes()"; "california" := "fetch_california_housing()" ]}.

(** An [assert] statement passes or raises [AssertionError]. *)
Inductive asserted :=
  | Passed
  | AssertionError.

Definition py_assert (condition : bool) : asserted :=
  if condition then Passed else AssertionError.

Definition choose_data_set_cell (choosen_data_set : string) : asserted :=
  py_assert (bool_decide (choosen_data_set ∈ dom data_sets)).

(** [data_sets[choosen_data_set]], the expression that the next cell hands to
    [eval]. *)
Definition data_set_expression (choosen_data_set : string) : outcome string :=
  match data_sets !! choosen_data_set with
  | Some expression => Return expression
  | None => Raise KeyError
  end.

(** *** Step 2 of Part 1: the frames

<<
data_set = eval(data_sets[choosen_data_set])

X = pd.DataFrame(data_set.data, columns=data_set.feature_names)
Y = pd.DataFrame(data_set.target)
>> *)

Section loading.
Context {N : Number}.

(** A NumPy array of two dimensions: its rows, and the second component of
    its shape, which the rows do not show when there are none. *)
Record ndarray := {
  n_columns : nat;
  array_rows : list (list num);
}.

(** What a loader of [sklearn.datasets] returns, as far as the cell reads
    it: [data] of shape (n, m), [feature_names] and [target] of shape (n,). *)
Record Bunch := {
  data : ndarray;
  feature_names : list string;
  target : list num;
}.

(** [pd.DataFrame(array, columns=names)]: the rows are labelled
    [0 .. n-1]; [ValueError] when the number of names is not the width of
    the array. *)
Definition DataFrame_of_array (array : ndarray) (names : list label)
    : outcome DataFrame :=
  if bool_decide (length names = n_columns array) then
    Return {| columns := names; rows := imap pair (array_rows array) |}
  else Raise ValueError.

(** [pd.DataFrame(vector)] for an array of one dimension: one column,
    labelled [0], and the rows labelled [0 .. n-1]. *)
Definition DataFrame_of_vector (vector : list num) : DataFrame :=
  {| columns := [Ordinal 0]; rows := imap (λ i y, (i, [y])) vector |}.

Definition load_cell (data_set : Bunch) : outcome (DataFrame * DataFrame) :=
  match DataFrame_of_array (data data_set) (Name <$> feature_names data_set) with
  | Return X => Return (X, DataFrame_of_vector (target data_set))
  | Raise e => Raise e
  end.

End loading.

(** *** Steps 2 and 3 of Part 3: the model and its hyperparameters

<<
models = ["xgboost", "linear-learner"]
model_selected = "xgboost"
assert model_selected in models
>>
<<
if model_selected == "xgboost":
    model.set_hyperparameters(
        max_depth=5,
        eta=0.2,
        gamma=4,
        min_child_weight=6,
        subsample=0.8,
        objective="reg:linear",
        early_stopping_rounds=10,
        num_round=1,
    )

if model_selected == "linear-learner":
    model.set_hyperparameters(
        feature_dim=X_train.shape[1], predictor_type="regressor", mini_batch_size=100
    )
>> *)

Inductive hyperparameter :=
  | HInt (i : Z)
  | HFloat (x : float)
  | HStr (s : string).

(** [Estimator.set_hyperparameters] stores each keyword argument in the
    dictionary of the estimator, over what is there. *)
Definition set_hyperparameters (kwargs : list (string * hyperparameter))
    (hyperparam_dict : gmap string hyperparameter) : gmap string hyperparameter :=
  foldl (λ d kv, <[kv.1 := kv.2]> d) hyperparam_dict kwargs.

Definition models : list string := ["xgboost"; "linear-learner"].

Definition select_model_cell (model_selected : string) : asserted :=
  py_assert (bool_decide (model_selected ∈ models)).

Definition set_hyperparameters_cell {N : Number} (model_selected : string)
    (X_train : DataFrame) (model : gmap string hyperparameter)
    : gmap string hyperparameter :=
  let model :=
    if String.eqb model_selected "xgboost" then
      set_hyperparameters
        [("max_depth", HInt 5); ("eta", HFloat 0.2); ("gamma", HInt 4);
         ("min_child_weight", HInt 6); ("subsample", HFloat 0.8);
         ("objective", HStr "reg:linear"); ("early_stopping_rounds", HInt 10);
         ("num_round", HInt 1)] model
    else model in
  if String.eqb model_selected "linear-learner" then
    set_hyperparameters
      [("feature_dim", HInt (Z.of_nat (shape X_train).2));
       ("predictor_type", HStr "regressor"); ("mini_batch_size", HInt 100)] model
  else model.

(** *** The notebook from the dataset to the training job

    The cells of the notebook in the order in which they run, for a dataset
    that a loader returned and a model that passed the assertion: the load
    cell, the split, the two scoring cells with their print loops, the
    pruning cell, the files, and the hyperparameters of a new estimator.
    (The calls that only plot or print a ranking are left out.)

    A name is bound as soon as its statement has run: every frame that a
    statement builds is put into the store at that point, so that a run that
    stops at an exception leaves in the store what the statements before it
    have bound.  The second statement of the split cell binds [X_train] and
    [Y_train] anew; the frames of the first statement stay in the store. *)

Section notebook_run.
Context {N : Number} {G : Generator} {L : Learners}.
Variable format_num : num → string.

(** The load cell: [X] and [Y]. *)
Definition load_cell_run (data_set : Bunch)
    : state (RandomState * gmap loc DataFrame) (loc * loc) :=
  '(X_, Y_) ← lift (load_cell data_set);
  X ← on_heap (alloc X_);
  Y ← on_heap (alloc Y_);
  mret (X, Y).

(** The split cell, statement by statement; the references it leaves in
    [X_train], [X_val], [X_test], [Y_train], [Y_val] and [Y_test]. *)
Definition split_cell_run (X Y : loc)
    : state (RandomState * gmap loc DataFrame) (loc * loc * loc * loc * loc * loc) :=
  X_ ← on_heap (deref X);
  Y_ ← on_heap (deref Y);
  '(X_train_, X_test_, Y_train_, Y_test_) ← on_rng (train_test_split X_ Y_ (33 # 100));
  X_train ← on_heap (alloc X_train_);
  X_test ← on_heap (alloc X_test_);
  Y_train ← on_heap (alloc Y_train_);
  Y_test ← on_heap (alloc Y_test_);
  X_ ← on_heap (deref X_train);
  Y_ ← on_heap (deref Y_train);
  '(X_train_, X_val_, Y_train_, Y_val_) ← on_rng (train_test_split X_ Y_ (33 # 100));
  X_train ← on_heap (alloc X_train_);
  X_val ← on_heap (alloc X_val_);
  Y_train ← on_heap (alloc Y_train_);
  Y_val ← on_heap (alloc Y_val_);
  mret (X_train, X_val, X_test, Y_train, Y_val, Y_test).

(** The two scoring cells, each with its print loop; the scores of the
    first, which the pruning cell is handed. *)
Definition scoring_cells_run (X_train : loc)
    : state (RandomState * gmap loc DataFrame) (list num) :=
  train ← on_heap (deref X_train);
  let feature_importances_xgboost := feature_importances_xgboost_cell train in
  _ ← lift (print_scores feature_importances_xgboost train);
  train ← on_heap (deref X_train);
  feature_importances_permutations ←
    on_rng (feature_importances_permutations_cell train);
  _ ← lift (print_scores feature_importances_permutations train);
  mret feature_importances_xgboost.

(** The serialising cell and the hyperparameter cell. *)
Definition training_cells_run (model_selected : string)
    (X_train X_val Y_train Y_val : loc)
    : state (RandomState * gmap loc DataFrame)
        (option (string * string) * gmap string hyperparameter) :=
  train ← on_heap (deref X_train);
  labels ← on_heap (deref Y_train);
  validation ← on_heap (deref X_val);
  validation_labels ← on_heap (deref Y_val);
  let files := write_csv_cell format_num train labels validation validation_labels in
  train ← on_heap (deref X_train);
  let model := set_hyperparameters_cell model_selected train ∅ in
  mret (files, model).

Definition notebook_run (data_set : Bunch) (threshold : num) (model_selected : string)
    : state (RandomState * gmap loc DataFrame)
        (option (string * string) * gmap string hyperparameter) :=
  '(X, Y) ← load_cell_run data_set;
  '(X_train, X_val, X_test, Y_train, Y_val, Y_test) ← split_cell_run X Y;
  feature_importances_xgboost ← scoring_cells_run X_train;
  _ ← on_heap (prune_cell feature_importances_xgboost threshold X_train X_val X_test);
  training_cells_run model_selected X_train X_val Y_train Y_val.

End notebook_run.

(** ** The second notebook: the name of the execution role

<<
role_name = role.split(["/"][-1])
print(f"The name of the Execution role: {role_name[-1]}")
>> *)

(** [l[-1]]: the last item; [IndexError] on an empty list. *)
Definition last_item {A} (l : list A) : outcome A :=
  match last l with
  | Some x => Return x
  | None => Raise IndexError
  end.

(** The separator is the last item of the list [["/"]], the string of the
    one character [/]. *)
Definition role_name (role : string) : outcome (list string) :=
  match last_item ["/"%char] with
  | Return sep => Return (split_on sep role)
  | Raise e => Raise e
  end.

(** The name that the cell prints. *)
Definition printed_role_name (role : string) : outcome string :=
  match role_name role with
  | Return names => last_item names
  | Raise e => Raise e
  end.

(** ** Implementations and data to run the cells on *)

(** A generator whose state counts the draws; the permutation it hands out
    is [range(n)] rotated by the count. *)
Definition counting_generator : Generator :=
  {| RandomState := nat;
     rng_permutation := λ n g, (Return (rotate g (seq 0 n)), S g) |}.

(** A second generator with the same draws and another state: it keeps the
    log of the sizes asked for, and rotates by the length of the log. *)
Definition logging_generator : Generator :=
  {| RandomState := list nat;
     rng_permutation := λ n log, (Return (rotate (length log) (seq 0 n)), n :: log) |}.

(** Estimators over whole numbers: a sample whose cells are numbered from
    the seed, an importance that is the sum over the rows of cell times
    target, and the permutation importance of a regressor of five nearest
    neighbours under the negative mean squared error, with five shuffles of
    each column drawn from [counting_generator]. *)
Definition n_features (X : list (list Z)) : nat :=
  match X with [] => 0 | row :: _ => length row end.

Definition weighted_column (X : list (list Z)) (y : list Z) (j : nat) : Z :=
  foldr Z.add 0%Z (zip_with (λ row y_i, (default 0 (row !! j) * y_i)%Z) X y).

(** The square of the Euclidean distance of two rows. *)
Definition squared_distance (u v : list Z) : Z :=
  foldr Z.add 0%Z (zip_with (λ p q, ((p - q) * (p - q))%Z) u v).

(** Five times what [KNeighborsRegressor()], fitted on [model], predicts at
    [x]: the sum of the targets of the five training rows nearest to [x],
    the earlier row first among rows at one distance.  (The prediction is
    their mean; the whole numbers here carry the factor.) *)
Definition knn_predict_5 (model : list (list Z) * list Z) (x : list Z) : Z :=
  foldr Z.add 0%Z
    (take 5 (stable_sort (N:=Z_number) (λ p : list Z * Z, squared_distance x p.1)
               (zip model.1 model.2))).*2.

(** The sum over the rows of the squares of five times the error:
    [25 * n] times the mean squared error of the model on [(X, y)]. *)
Definition squared_errors (model : list (list Z) * list Z)
    (X : list (list Z)) (y : list Z) : Z :=
  foldr Z.add 0%Z
    (zip_with (λ x y_i, let e := (knn_predict_5 model x - 5 * y_i)%Z in (e * e)%Z) X y).

(** [X] with column [j] shuffled by the permutation [p]: row [i] gets the
    cell of row [p[i]]. *)
Definition shuffle_column (p : list nat) (j : nat) (X : list (list Z))
    : list (list Z) :=
  imap (λ i (row : list Z),
          match k ← p !! i; source ← X !! k; source !! j with
          | Some cell => <[j := cell]> row
          | None => row
          end) X.

(** [n_repeats] of [permutation_importance], by default. *)
Definition n_repeats : nat := 5.

(** The importance of column [j]: the baseline score minus the mean of the
    scores after each of the [n_repeats] shuffles of the column, the score
    being the negative mean squared error, in units of
    [1 / (25 * n * n_repeats)].  The shuffles are the next permutations that
    [counting_generator] hands out from the state [g]. *)
Definition column_importance (model : list (list Z) * list Z)
    (X : list (list Z)) (y : list Z) (g j : nat) : Z :=
  (foldr Z.add 0%Z
     ((λ r, squared_errors model
              (shuffle_column (rotate (g + j * n_repeats + r) (seq 0 (length X))) j X) y)
        <$> seq 0 n_repeats)
   - Z.of_nat n_repeats * squared_errors model X y)%Z.

Definition numbering_learners : @Learners Z_number counting_generator :=
  @Build_Learners Z_number counting_generator
    (λ n_samples n_features _ random_state,
       ((λ i, (λ j, Z.of_nat (random_state + i * n_features + j)) <$> seq 0 n_features)
          <$> seq 0 n_samples,
        (λ i, Z.of_nat i) <$> seq 0 n_samples))
    (list (list Z) * list Z)
    (λ X y, (X, y))
    (λ model, weighted_column model.1 model.2 <$> seq 0 (n_features model.1))
    (list (list Z) * list Z)
    (λ X y, (X, y))
    (λ model X y scoring g,
       if length X <? 5 then (Raise ValueError, g)
       else (Return (column_importance model X y g <$> seq 0 (n_features X)),
             g + n_features X * n_repeats)).

(** Whole numbers in decimal. *)
Definition format_Z (z : Z) : string := NilZero.string_of_int (Z.to_int z).
Definition parse_Z (s : string) : option Z := Z.of_int <$> NilZero.int_of_string s.

Definition a : label := Name "a".
Definition b : label := Name "b".
Definition c : label := Name "c".

(** Two rows over the features [a], [b], [c], and the scores of the scenario
    [{a: 0.5, b: 0.01, c: 0.2}]. *)
Definition frame_abc : @DataFrame float_number :=
  @Build_DataFrame float_number [a; b; c]
    [(0, [1.5; 2.5; 3.5]%float); (1, [4.5; 5.5; 6.5]%float)].
Definition scores_abc : list float := [0.5; 0.01; 0.2]%float.

(** Stores: [frame_abc] at the reference [1]; [frame_abc] at three
    references; frames over different feature sets at three references. *)
Definition store_abc : gmap loc (@DataFrame float_number) :=
  {[ 1%positive := frame_abc ]}.
Definition store_aligned : gmap loc (@DataFrame float_number) :=
  {[ 1%positive := frame_abc; 2%positive := frame_abc; 3%positive := frame_abc ]}.
Definition frame_ab : @DataFrame float_number :=
  @Build_DataFrame float_number [a; b] [(0, [1.5; 2.5]%float)].
Definition frame_ac : @DataFrame float_number :=
  @Build_DataFrame float_number [a; c] [(1, [4.5; 6.5]%float)].
Definition store_misaligned : gmap loc (@DataFrame float_number) :=
  {[ 1%positive := frame_ab; 2%positive := frame_ac; 3%positive := frame_ab ]}.

(** The frame of the ranking example: features [A], [B], [C]. *)
Definition frame_ABC : @DataFrame Q_number :=
  @Build_DataFrame Q_number [Name "A"; Name "B"; Name "C"] [].

(** Three rows of features and their labels. *)
Definition X3 : @DataFrame float_number :=
  @Build_DataFrame float_number [a; b; c]
    [(0, [1.5; 2.5; 3.5]%float); (1, [4.5; 5.5; 6.5]%float); (2, [7.5; 8.5; 9.5]%float)].
Definition Y3 : @DataFrame float_number :=
  @Build_DataFrame float_number [Ordinal 0]
    [(0, [10.5]%float); (1, [11.5]%float); (2, [12.5]%float)].

(** The same in whole numbers. *)
Definition X3z : @DataFrame Z_number :=
  @Build_DataFrame Z_number [a; b]
    [(0, [10; 20]%Z); (1, [30; -40]%Z); (2, [0; 7]%Z)].
Definition Y3z : @DataFrame Z_number :=
  @Build_DataFrame Z_number [Ordinal 0] [(0, [5]%Z); (1, [6]%Z); (2, [-1]%Z)].

(** Two training splits of one shape with different cells, and labels. *)
Definition Xz : @DataFrame Z_number :=
  @Build_DataFrame Z_number [a; b] [(0, [10; 20]%Z); (1, [30; 40]%Z)].
Definition Xz' : @DataFrame Z_number :=
  @Build_DataFrame Z_number [a; b] [(4, [-7; 0]%Z); (9, [0; 100]%Z)].
Definition Yz : @DataFrame Z_number :=
  @Build_DataFrame Z_number [Ordinal 0] [(0, [5]%Z); (1, [6]%Z)].

(** A training and a validation split as the split cell leaves them, with
    their labels. *)
Definition X_train_z : @DataFrame Z_number :=
  @Build_DataFrame Z_number [a; b] [(1, [30; -40]%Z); (0, [10; 20]%Z)].
Definition Y_train_z : @DataFrame Z_number :=
  @Build_DataFrame Z_number [Ordinal 0] [(1, [6]%Z); (0, [5]%Z)].
Definition X_val_z : @DataFrame Z_number :=
  @Build_DataFrame Z_number [a; b] [(2, [0; 7]%Z)].
Definition Y_val_z : @DataFrame Z_number :=
  @Build_DataFrame Z_number [Ordinal 0] [(2, [-1]%Z)].

(** Two training splits of eight rows, of one shape and with different
    cells. *)
Definition Xz8 : @DataFrame Z_number :=
  @Build_DataFrame Z_number [a; b]
    [(0, [10; 20]%Z); (1, [30; 40]%Z); (2, [0; 7]%Z); (3, [5; 5]%Z);
     (4, [-3; 8]%Z); (5, [12; 1]%Z); (6, [9; 9]%Z); (7, [2; 4]%Z)].
Definition Xz8' : @DataFrame Z_number :=
  @Build_DataFrame Z_number [a; b]
    [(4, [-7; 0]%Z); (9, [0; 100]%Z); (11, [1; 1]%Z); (12, [2; 2]%Z);
     (15, [3; 3]%Z); (16, [4; 4]%Z); (20, [5; 5]%Z); (21, [6; 6]%Z)].

(** A dataset of twelve rows and two features, as a loader would return it,
    and the frames that the load cell builds of it. *)
Definition bunch_12 : @Bunch Z_number :=
  @Build_Bunch Z_number
    (@Build_ndarray Z_number 2
       [[10; 20]; [30; -40]; [0; 7]; [5; 5]; [-3; 8]; [12; 1];
        [9; 9]; [2; 4]; [6; -6]; [7; 70]; [8; 0]; [11; 13]]%Z)
    ["a"; "b"] [5; 6; -1; 0; 2; 3; 4; 9; 8; 7; 12; 10]%Z.
Definition X12z : @DataFrame Z_number :=
  @Build_DataFrame Z_number [a; b] (imap pair (array_rows (data bunch_12))).
Definition Y12z : @DataFrame Z_number := DataFrame_of_vector (target bunch_12).

(** A dataset of three rows and two features, as a loader would return it,
    and one of two rows. *)
Definition bunch_z : @Bunch Z_number :=
  @Build_Bunch Z_number
    (@Build_ndarray Z_number 2 [[10; 20]; [30; -40]; [0; 7]]%Z) ["a"; "b"] [5; 6; -1]%Z.
Definition bunch_small : @Bunch Z_number :=
  @Build_Bunch Z_number (@Build_ndarray Z_number 2 [[10; 20]; [30; -40]]%Z) ["a"; "b"] [5; 6]%Z.

(** A working set in which [sagemaker] is installed, after two others. *)
Definition working_set_example : list Distribution :=
  [ {| key := "numpy"; version := "1.19.5" |};
    {| key := "pandas"; version := "1.1.5" |};
    {| key := "sagemaker"; version := "2.15.0" |};
    {| key := "xgboost"; version := "1.3.3" |} ].

(** * Part II.  The properties *)

(** ** Splitting *)

Section positional.
Context {A : Type}.
Implicit Types (l : list A) (p q : list nat).

Lemma lookup_seq_from (pre l : list A) :
  Forall2 (λ i y, (pre ++ l) !! i = Some y) (seq (length pre) (length l)) l.
Proof.
  revert pre. induction l as [|x l IH]; intros pre; simpl; constructor.
  - by rewrite list_lookup_middle.
  - specialize (IH (pre ++ [x])). rewrite <- app_assoc in IH. simpl in IH.
    rewrite length_app in IH. simpl in IH. by rewrite Nat.add_1_r in IH.
Qed.

(** Reading a list at all its positions, in order, gives the list. *)
Lemma mapM_lookup_seq l : mapM (λ i, l !! i) (seq 0 (length l)) = Some l.
Proof. apply mapM_Some. apply (lookup_seq_from [] l). Qed.

Lemma mapM_Permutation {B} (f : nat → option B) p q kq :
  p ≡ₚ q → mapM f q = Some kq → ∃ kp, mapM f p = Some kp ∧ kp ≡ₚ kq.
Proof.
  intros Hpq. revert kq. induction Hpq as [|i p q Hpq IH|i j p|p q r H1 IH1 H2 IH2];
    intros kq Hq.
  - exists kq. by split.
  - apply mapM_Some in Hq. inversion Hq as [|? y ? k' Hy Hk]; subst.
    apply mapM_Some in Hk. destruct (IH _ Hk) as (kp & Hkp & Hperm).
    exists (y :: kp). split; [|by constructor].
    apply mapM_Some. constructor; [done|]. by apply mapM_Some.
  - apply mapM_Some in Hq.
    inversion Hq as [|? y1 ? k1 Hy1 Hk1]; subst.
    inversion Hk1 as [|? y2 ? k2 Hy2 Hk2]; subst.
    exists (y2 :: y1 :: k2). split; [|apply Permutation_swap].
    apply mapM_Some. by repeat constructor.
  - destruct (IH2 _ Hq) as (k2 & Hk2 & Hperm2).
    destruct (IH1 _ Hk2) as (k1 & Hk1 & Hperm1).
    exists k1. split; [done|]. by etrans.
Qed.

(** Reading a list at a permutation of its positions, the first [k] of them
    on one side and the rest on the other, splits it in two. *)
Lemma mapM_lookup_split l p k :
  p ≡ₚ seq 0 (length l) → k ≤ length l →
  ∃ l1 l2,
    mapM (λ i, l !! i) (take k p) = Some l1 ∧
    mapM (λ i, l !! i) (take (length l - k) (drop k p)) = Some l2 ∧
    l2 ++ l1 ≡ₚ l ∧ length l1 = k ∧ length l2 = length l - k.
Proof.
  intros Hp Hk.
  destruct (mapM_Permutation (λ i, l !! i) p _ l Hp (mapM_lookup_seq l))
    as (l' & Hl' & Hperm).
  assert (length p = length l) as Hlen.
  { by rewrite Hp, length_seq. }
  assert (length l' = length l) as Hlen' by by rewrite Hperm.
  apply mapM_Some in Hl'.
  exists (take k l'), (drop k l'). split_and!.
  - apply mapM_Some. by apply Forall2_take.
  - rewrite take_ge by (rewrite length_drop; lia).
    apply mapM_Some. by apply Forall2_drop.
  - by rewrite Permutation_app_comm, take_drop.
  - rewrite length_take. lia.
  - rewrite length_drop. lia.
Qed.

End positional.

(** Rows read at the same positions of two tables with one index have the
    same index labels. *)
Lemma mapM_lookup_index {B} (l k : list (nat * B)) (positions : list nat) l' k' :
  l.*1 = k.*1 →
  mapM (λ i, l !! i) positions = Some l' →
  mapM (λ i, k !! i) positions = Some k' →
  l'.*1 = k'.*1.
Proof.
  intros Hindex Hl Hk. apply mapM_Some in Hl. apply mapM_Some in Hk.
  revert k' Hk. induction Hl as [|i x positions l' Hx Hl IH]; intros k' Hk.
  - by inversion Hk.
  - inversion Hk as [|? y ? k'' Hy Hk']; subst. simpl. f_equal; [|by apply IH].
    assert (l.*1 !! i = Some x.1) as H1 by by rewrite list_lookup_fmap, Hx.
    assert (k.*1 !! i = Some y.1) as H2 by by rewrite list_lookup_fmap, Hy.
    rewrite Hindex in H1. congruence.
Qed.

Section splitting_lemmas.
Context {N : Number} {G : Generator} {GL : GeneratorLaws G}.
Implicit Types (X Y D : DataFrame) (g : RandomState).

Lemma df_iloc_rows X positions rs :
  mapM (λ i, rows X !! i) positions = Some rs →
  df_iloc positions X = Return {| columns := columns X; rows := rs |}.
Proof. unfold df_iloc. by intros ->. Qed.

Lemma df_iloc_index X Y positions X' Y' :
  index X = index Y →
  df_iloc positions X = Return X' → df_iloc positions Y = Return Y' →
  index X' = index Y'.
Proof.
  unfold df_iloc, index. intros Hindex HX HY.
  destruct (mapM _ positions) as [xs|] eqn:Hxs in HX; [|done].
  destruct (mapM _ positions) as [ys|] eqn:Hys in HY; [|done].
  injection HX as <-. injection HY as <-. simpl.
  by eapply mapM_lookup_index.
Qed.

(** What one call of [train_test_split] does: on arguments it accepts it
    returns four frames, the training and test rows of [X] being a
    rearrangement of the rows of [X] (and of [Y] likewise), with the sizes
    fixed by the fraction; on all other arguments it raises [ValueError]
    before drawing from the generator. *)
Lemma train_test_split_cases test_size X Y g :
  (splittable test_size X Y ∧
   ∃ X_train X_test Y_train Y_test g',
     train_test_split X Y test_size g
       = (Return (X_train, X_test, Y_train, Y_test), g') ∧
     rows X_train ++ rows X_test ≡ₚ rows X ∧
     rows Y_train ++ rows Y_test ≡ₚ rows Y ∧
     length (rows X_train) = length (rows X) - n_test_of test_size (length (rows X)) ∧
     length (rows Y_train) = length (rows X_train))
  ∨ (¬ splittable test_size X Y ∧
     train_test_split X Y test_size g = (Raise ValueError, g)).
Proof.
  unfold train_test_split, splittable.
  case_bool_decide as Hlen; [|right; split; [tauto|done]].
  unfold validate_shuffle_split, mbind, state_bind, lift.
  destruct (Qle_bool test_size 0) eqn:E0;
    [right; split; [|done]; by intros (_ & ? & _)|].
  destruct (Qle_bool 1 test_size) eqn:E1;
    [right; split; [|done]; by intros (_ & _ & ? & _)|].
  simpl. case_bool_decide as Htrain; [right; split; [|done]; lia|].
  left. split; [split_and!; [done..|lia]|].
  set (n := length (rows X)) in *. set (k := n_test_of test_size n) in *.
  destruct (rng_permutation_returns n g) as (p & g' & -> & Hp).
  destruct (mapM_lookup_split (rows X) p k Hp ltac:(lia))
    as (x1 & x2 & Hx1 & Hx2 & HxP & Hxl1 & Hxl2).
  assert (p ≡ₚ seq 0 (length (rows Y))) as HpY by by rewrite <- Hlen.
  destruct (mapM_lookup_split (rows Y) p k HpY ltac:(lia))
    as (y1 & y2 & Hy1 & Hy2 & HyP & Hyl1 & Hyl2).
  fold n in Hx2. rewrite <- Hlen in Hy2. fold n in Hy2.
  rewrite (df_iloc_rows X _ _ Hx2), (df_iloc_rows X _ _ Hx1).
  rewrite (df_iloc_rows Y _ _ Hy2), (df_iloc_rows Y _ _ Hy1).
  eexists _, _, _, _, _. split; [reflexivity|]. simpl.
  split_and!; [done..| |]; lia.
Qed.

(** The two calls in sequence: the cell returns on the arguments that both
    calls accept, with frames whose rows rearrange the rows of the dataset,
    and raises [ValueError] on all others. *)
Lemma split_cell_cases test_size validation_size X Y g :
  (cell_splittable test_size validation_size X Y ∧
   ∃ X_train X_val X_test Y_train Y_val Y_test g',
     split_cell test_size validation_size X Y g
       = (Return (X_train, X_val, X_test, Y_train, Y_val, Y_test), g') ∧
     rows X_train ++ rows X_val ++ rows X_test ≡ₚ rows X ∧
     rows Y_train ++ rows Y_val ++ rows Y_test ≡ₚ rows Y)
  ∨ (¬ cell_splittable test_size validation_size X Y ∧
     ∃ g', split_cell test_size validation_size X Y g = (Raise ValueError, g')).
Proof.
  unfold split_cell, cell_splittable, mbind, state_bind.
  destruct (train_test_split_cases test_size X Y g)
    as [(Hs1 & X1 & Xte & Y1 & Yte & g1 & -> & HX & HY & HlenX & HlenY) | (Hs1 & ->)];
    [|right; split; [tauto | by eauto]].
  destruct (train_test_split_cases validation_size X1 Y1 g1)
    as [(Hs2 & Xtr & Xval & Ytr & Yval & g2 & -> & HX' & HY' & _ & _) | (Hs2 & ->)].
  - left. split.
    + split; [done|]. destruct Hs2 as (_ & ? & ? & Hlt). by rewrite HlenX in Hlt.
    + eexists _, _, _, _, _, _, _. split; [reflexivity|].
      split; by rewrite app_assoc, ?HX', ?HY'.
  - right. split; [|by eauto].
    intros (_ & ? & ? & Hlt). apply Hs2.
    unfold splittable. rewrite HlenX. split_and!; [by rewrite HlenY | done..].
Qed.

Lemma NoDup_app3_disjoint (l1 l2 l3 : list nat) :
  NoDup (l1 ++ l2 ++ l3) →
  (∀ i, i ∈ l1 → i ∉ l2) ∧ (∀ i, i ∈ l1 → i ∉ l3) ∧ (∀ i, i ∈ l2 → i ∉ l3).
Proof.
  intros H. apply NoDup_app in H as (_ & H1 & H23).
  apply NoDup_app in H23 as (_ & H23 & _).
  split_and!; intros i Hi Hi'.
  - apply (H1 i Hi). apply elem_of_app. by left.
  - apply (H1 i Hi). apply elem_of_app. by right.
  - by apply (H23 i Hi).
Qed.

Lemma partitions_of_rows D train val test :
  rows train ++ rows val ++ rows test ≡ₚ rows D → partitions D train val test.
Proof.
  intros HP. unfold partitions. split_and!; [|done|].
  - rewrite <- HP, !length_app. lia.
  - intros Hnd. unfold index in *. apply NoDup_app3_disjoint.
    rewrite <- !fmap_app. by rewrite HP.
Qed.

(** [train_test_split] keeps features and labels aligned. *)
Lemma train_test_split_index test_size X Y g X_train X_test Y_train Y_test g' :
  index X = index Y →
  train_test_split X Y test_size g = (Return (X_train, X_test, Y_train, Y_test), g') →
  index X_train = index Y_train ∧ index X_test = index Y_test.
Proof.
  intros Hindex. unfold train_test_split.
  case_bool_decide; [|done]. unfold mbind, state_bind, lift.
  destruct (validate_shuffle_split _ _) as [[n_train n_test]|]; simpl; [|done].
  destruct (rng_permutation _ g) as [[p|] g1]; simpl; [|done].
  destruct (df_iloc (take n_train (drop n_test p)) X) as [X1|] eqn:HX1; simpl; [|done].
  destruct (df_iloc (take n_test p) X) as [X2|] eqn:HX2; simpl; [|done].
  destruct (df_iloc (take n_train (drop n_test p)) Y) as [Y1|] eqn:HY1; simpl; [|done].
  destruct (df_iloc (take n_test p) Y) as [Y2|] eqn:HY2; simpl; [|done].
  intros [= <- <- <- <- <-]. split; by eapply df_iloc_index.
Qed.

Lemma split_cell_index test_size validation_size X Y g
    X_train X_val X_test Y_train Y_val Y_test g' :
  index X = index Y →
  split_cell test_size validation_size X Y g
    = (Return (X_train, X_val, X_test, Y_train, Y_val, Y_test), g') →
  index Y_train = index X_train ∧ index Y_val = index X_val ∧
  index Y_test = index X_test.
Proof.
  intros Hindex. unfold split_cell, mbind, state_bind.
  destruct (train_test_split X Y test_size g)
    as [[[[[X1 Xte] Y1] Yte]|] g1] eqn:H1; [|done].
  destruct (train_test_split X1 Y1 validation_size g1)
    as [[[[[Xtr Xval] Ytr] Yval]|] g2] eqn:H2; [|done].
  intros [= <- <- <- <- <- <- <-].
  destruct (train_test_split_index _ _ _ _ _ _ _ _ _ Hindex H1) as [Hi1 Hte].
  destruct (train_test_split_index _ _ _ _ _ _ _ _ _ Hi1 H2) as [Htr Hval].
  by split_and!.
Qed.

Lemma df_iloc_columns X positions X' :
  df_iloc positions X = Return X' → columns X' = columns X.
Proof. unfold df_iloc. destruct (mapM _ _); [|done]. by intros [= <-]. Qed.

Lemma train_test_split_columns test_size X Y g X_train X_test Y_train Y_test g' :
  train_test_split X Y test_size g = (Return (X_train, X_test, Y_train, Y_test), g') →
  columns X_train = columns X ∧ columns X_test = columns X.
Proof.
  unfold train_test_split.
  case_bool_decide; [|done]. unfold mbind, state_bind, lift.
  destruct (validate_shuffle_split _ _) as [[n_train n_test]|]; simpl; [|done].
  destruct (rng_permutation _ g) as [[p|] g1]; simpl; [|done].
  destruct (df_iloc (take n_train (drop n_test p)) X) as [X1|] eqn:HX1; simpl; [|done].
  destruct (df_iloc (take n_test p) X) as [X2|] eqn:HX2; simpl; [|done].
  destruct (df_iloc (take n_train (drop n_test p)) Y) as [Y1|] eqn:HY1; simpl; [|done].
  destruct (df_iloc (take n_test p) Y) as [Y2|] eqn:HY2; simpl; [|done].
  intros [= <- <- <- <- <-]. split; by eapply df_iloc_columns.
Qed.

(** The three feature frames that the split cell returns have the columns of
    the dataset, in the order of the dataset: the splits are aligned. *)
Theorem split_cell_keeps_columns test_size validation_size X Y g
    X_train X_val X_test Y_train Y_val Y_test g' :
  split_cell test_size validation_size X Y g
    = (Return (X_train, X_val, X_test, Y_train, Y_val, Y_test), g') →
  columns X_train = columns X ∧ columns X_val = columns X ∧
  columns X_test = columns X.
Proof.
  unfold split_cell, mbind, state_bind.
  destruct (train_test_split X Y test_size g)
    as [[[[[X1 Xte] Y1] Yte]|] g1] eqn:H1; [|done].
  destruct (train_test_split X1 Y1 validation_size g1)
    as [[[[[Xtr Xval] Ytr] Yval]|] g2] eqn:H2; [|done].
  intros [= <- <- <- <- <- <- <-].
  destruct (train_test_split_columns _ _ _ _ _ _ _ _ _ H1) as [Hc1 Hte].
  destruct (train_test_split_columns _ _ _ _ _ _ _ _ _ H2) as [Htr Hval].
  split_and!; congruence.
Qed.

(** C5.  For every dataset (features [X], labels [Y]), fractions and state of
    the generator: whenever the split cell returns, its training,
    validation and test frames have row counts that add up to the row count
    of the dataset, their rows together are the rows of the dataset, each
    once, and (the index labels of the dataset being distinct) no row
    belongs to two of them; the same holds of the label frames.  The cell
    returns exactly when both calls of [train_test_split] accept their
    arguments (fractions strictly between 0 and 1, features and labels of one
    length, no empty training part), and it raises [ValueError] otherwise. *)
Theorem split_cell_partitions test_size validation_size X Y g :
  (cell_splittable test_size validation_size X Y →
   ∃ out g', split_cell test_size validation_size X Y g = (Return out, g')) ∧
  (¬ cell_splittable test_size validation_size X Y →
   ∃ g', split_cell test_size validation_size X Y g = (Raise ValueError, g')) ∧
  (∀ X_train X_val X_test Y_train Y_val Y_test g',
     split_cell test_size validation_size X Y g
       = (Return (X_train, X_val, X_test, Y_train, Y_val, Y_test), g') →
     partitions X X_train X_val X_test ∧ partitions Y Y_train Y_val Y_test).
Proof.
  destruct (split_cell_cases test_size validation_size X Y g)
    as [(Hs & Xtr & Xval & Xte & Ytr & Yval & Yte & g1 & Hrun & HX & HY)
       | (Hs & g1 & Hrun)]; rewrite Hrun.
  - split_and!; [by eauto | done |].
    intros ? ? ? ? ? ? ? [= <- <- <- <- <- <- <-].
    split; by apply partitions_of_rows.
  - split_and!; [done | by eauto | done].
Qed.

End splitting_lemmas.

Section reproducible.
Context {N : Number} (G1 G2 : Generator).
Variable R : @RandomState G1 → @RandomState G2 → Prop.
Implicit Types (X Y : DataFrame).

Lemma agree_bind {A B}
    (m1 : state (@RandomState G1) A) (m2 : state (@RandomState G2) A)
    (f1 : A → state (@RandomState G1) B) (f2 : A → state (@RandomState G2) B) g1 g2 :
  agree G1 G2 R (m1 g1) (m2 g2) →
  (∀ a s1 s2, R s1 s2 → agree G1 G2 R (f1 a s1) (f2 a s2)) →
  agree G1 G2 R ((m1 ≫= f1) g1) ((m2 ≫= f2) g2).
Proof.
  unfold agree, mbind, state_bind. intros [Ho Hs] Hf.
  destruct (m1 g1) as [[a1|e1] s1], (m2 g2) as [[a2|e2] s2]; simpl in *.
  - injection Ho as ->. by apply Hf.
  - done.
  - done.
  - injection Ho as ->. by split.
Qed.

Lemma agree_lift {A} (o : outcome A) g1 g2 :
  R g1 g2 → agree G1 G2 R (lift o g1) (lift o g2).
Proof. by split. Qed.

Lemma train_test_split_agree X Y test_size g1 g2 :
  same_draws G1 G2 R → R g1 g2 →
  agree G1 G2 R (train_test_split (G:=G1) X Y test_size g1)
                (train_test_split (G:=G2) X Y test_size g2).
Proof.
  intros Hdraws HR. unfold train_test_split. case_bool_decide; [|by split].
  apply agree_bind; [by apply agree_lift|]. intros [n_train n_test] s1 s2 Hs.
  apply agree_bind; [by apply Hdraws|]. intros p t1 t2 Ht.
  repeat (apply agree_bind; [by apply agree_lift|]; intros ? ? ? ?).
  by split.
Qed.

(** Two runs whose generators hand out the same draws end alike. *)
Lemma split_cell_agree test_size validation_size X Y g1 g2 :
  same_draws G1 G2 R → R g1 g2 →
  agree G1 G2 R (split_cell (G:=G1) test_size validation_size X Y g1)
                (split_cell (G:=G2) test_size validation_size X Y g2).
Proof.
  intros Hdraws HR. unfold split_cell.
  apply agree_bind; [by apply train_test_split_agree|].
  intros [[[X1 Xte] Y1] Yte] s1 s2 Hs.
  apply agree_bind; [by apply train_test_split_agree|].
  intros [[[Xtr Xval] Ytr] Yval] t1 t2 Ht. by split.
Qed.

(** With distinct row labels, the rows that [iloc] selects tell the
    positions. *)
Lemma mapM_lookup_inj {A} (l : list (nat * A)) (ps qs : list nat) rs :
  NoDup l.*1 →
  mapM (λ i, l !! i) ps = Some rs → mapM (λ i, l !! i) qs = Some rs → ps = qs.
Proof.
  intros Hnd Hp Hq. apply mapM_Some in Hp. apply mapM_Some in Hq.
  revert qs Hq. induction Hp as [|i r ps rs Hi _ IH]; intros qs Hq.
  - by inversion Hq.
  - inversion Hq as [|j ? qs' ? Hj Hq']; subst. f_equal; [|by apply IH].
    apply (NoDup_lookup l.*1 i j r.1); [done|..];
      rewrite list_lookup_fmap; by rewrite ?Hi, ?Hj.
Qed.

(** The test frame of a call is made of the rows at the first positions of
    the permutation that the call draws. *)
Lemma train_test_split_test_rows (G : Generator) test_size X Y (g : @RandomState G)
    p s X_train X_test Y_train Y_test g' :
  rng_permutation (length (rows X)) g = (Return p, s) →
  train_test_split (G:=G) X Y test_size g
    = (Return (X_train, X_test, Y_train, Y_test), g') →
  mapM (λ i, rows X !! i) (take (n_test_of test_size (length (rows X))) p)
  = Some (rows X_test).
Proof.
  intros Hp. unfold train_test_split.
  case_bool_decide; [|done]. unfold validate_shuffle_split, mbind, state_bind, lift.
  destruct (Qle_bool test_size 0 || Qle_bool 1 test_size); [done|].
  simpl. case_bool_decide; [done|]. rewrite Hp. simpl.
  unfold df_iloc.
  destruct (mapM _ (take (_ - _) _)) as [xs|]; simpl; [|done].
  destruct (mapM (λ i, rows X !! i) (take _ p)) as [xt|]; simpl; [|done].
  destruct (mapM _ (take (_ - _) _)) as [ys|]; simpl; [|done].
  destruct (mapM _ (take _ p)) as [yt|]; simpl; [|done].
  by intros [= <- <- <- <- <-].
Qed.

(** C6, as the code has it.  The cell passes no seed ([random_state]): the
    split draws from the generator of the process.  For every dataset and
    fractions, two runs whose generators hand out the same draws, as two
    generators seeded alike do, end alike, with the same training,
    validation and test frames (or the same exception).  And the outputs
    follow the draws: two runs that return, on a dataset with distinct row
    labels, after first draws that differ on the test positions, return
    different test frames. *)
Theorem split_cell_follows_the_draws test_size validation_size X Y g1 g2 :
  (same_draws G1 G2 R → R g1 g2 →
   (split_cell (G:=G1) test_size validation_size X Y g1).1
   = (split_cell (G:=G2) test_size validation_size X Y g2).1) ∧
  (∀ p1 p2 s1 s2 g1' g2'
     X_train1 X_val1 X_test1 Y_train1 Y_val1 Y_test1
     X_train2 X_val2 X_test2 Y_train2 Y_val2 Y_test2,
     NoDup (index X) →
     rng_permutation (Generator:=G1) (length (rows X)) g1 = (Return p1, s1) →
     rng_permutation (Generator:=G2) (length (rows X)) g2 = (Return p2, s2) →
     take (n_test_of test_size (length (rows X))) p1
       ≠ take (n_test_of test_size (length (rows X))) p2 →
     split_cell (G:=G1) test_size validation_size X Y g1
       = (Return (X_train1, X_val1, X_test1, Y_train1, Y_val1, Y_test1), g1') →
     split_cell (G:=G2) test_size validation_size X Y g2
       = (Return (X_train2, X_val2, X_test2, Y_train2, Y_val2, Y_test2), g2') →
     X_test1 ≠ X_test2).
Proof.
  split.
  - intros Hdraws HR.
    by destruct (split_cell_agree test_size validation_size X Y g1 g2 Hdraws HR).
  - intros p1 p2 s1 s2 g1' g2' Xtr1 Xval1 Xte1 Ytr1 Yval1 Yte1
      Xtr2 Xval2 Xte2 Ytr2 Yval2 Yte2 Hnd Hp1 Hp2 Hdiff Hrun1 Hrun2 Heq.
    unfold split_cell, mbind, state_bind in Hrun1, Hrun2.
    destruct (train_test_split (G:=G1) X Y test_size g1)
      as [[[[[A1 B1] C1] D1]|] t1] eqn:H1; [|done].
    destruct (train_test_split (G:=G1) A1 C1 validation_size t1)
      as [[[[[? ?] ?] ?]|] ?]; [|done].
    destruct (train_test_split (G:=G2) X Y test_size g2)
      as [[[[[A2 B2] C2] D2]|] t2] eqn:H2; [|done].
    destruct (train_test_split (G:=G2) A2 C2 validation_size t2)
      as [[[[[? ?] ?] ?]|] ?]; [|done].
    injection Hrun1 as <- <- <- <- <- <- <-. injection Hrun2 as <- <- <- <- <- <- <-.
    apply (train_test_split_test_rows G1 _ _ _ _ _ _ _ _ _ _ _ Hp1) in H1.
    apply (train_test_split_test_rows G2 _ _ _ _ _ _ _ _ _ _ _ Hp2) in H2.
    rewrite Heq in H1. apply Hdiff.
    by apply (mapM_lookup_inj (rows X) _ _ (rows B2)).
Qed.

End reproducible.

(** *** The fractions of the notebook *)

Lemma n_test_of_33 (n : nat) : n_test_of (33 # 100) n = (33 * n + 99) `div` 100.
Proof.
  unfold n_test_of, Qceiling, Qfloor. cbn [Qopp Qmult Qnum Qden inject_Z].
  change (Z.pos (100 * 1)) with 100%Z.
  apply Nat2Z.inj. rewrite Nat2Z.inj_div, Nat2Z.inj_add, Nat2Z.inj_mul.
  simpl Z.of_nat at 1 3 4.
  rewrite Z2Nat.id; Z.div_mod_to_equations; lia.
Qed.

Lemma counting_generator_laws : GeneratorLaws counting_generator.
Proof.
  split. intros n g. eexists _, _. split; [reflexivity|].
  unfold rotate. by rewrite Permutation_app_comm, take_drop.
Qed.

(** The split of three rows, drawn from [counting_generator]: row [1]
    trains, row [2] validates, row [0] tests. *)
Lemma split_cell_partitions_X3 :
  (∃ X_train X_val X_test Y_train Y_val Y_test g',
     notebook_split_cell (G:=counting_generator) X3 Y3 0
       = (Return (X_train, X_val, X_test, Y_train, Y_val, Y_test), g') ∧
     index X_train = [1] ∧ index X_val = [2] ∧ index X_test = [0] ∧
     partitions X3 X_train X_val X_test ∧ partitions Y3 Y_train Y_val Y_test) ∧
  (cell_splittable (33 # 100) (33 # 100) X3 Y3 →
   ∃ out g', split_cell (G:=counting_generator) (33 # 100) (33 # 100) X3 Y3 0
               = (Return out, g')) ∧
  (¬ cell_splittable (33 # 100) (33 # 100) X3 Y3 →
   ∃ g', split_cell (G:=counting_generator) (33 # 100) (33 # 100) X3 Y3 0
           = (Raise ValueError, g')).
Proof.
  pose proof (split_cell_partitions (N:=float_number) (G:=counting_generator)
                (GL:=counting_generator_laws) (33 # 100) (33 # 100) X3 Y3 0)
    as (Hret & Hraise & Hpart).
  split; [|split; [exact Hret | exact Hraise]].
  eexists _, _, _, _, _, _, _. split; [by vm_compute|].
  split_and!; [reflexivity..| |]; by eapply Hpart; vm_compute.
Defined.

(** A run that draws from [counting_generator] and a run that draws from
    [logging_generator], both freshly started: the states differ, the draws
    do not, and the runs end alike.  And two runs on the dataset of twelve
    rows, the second started where the first stopped: the first draws
    differ on the four test positions, and so do the test frames. *)
Lemma split_cell_follows_the_draws_X :
  (same_draws counting_generator logging_generator (λ g log, length log = g) ∧
   length (@nil nat) = 0) ∧
  (notebook_split_cell (G:=counting_generator) X3 Y3 0).1
  = (notebook_split_cell (G:=logging_generator) X3 Y3 []).1 ∧
  ∃ X_train1 X_val1 X_test1 Y_train1 Y_val1 Y_test1
    X_train2 X_val2 X_test2 Y_train2 Y_val2 Y_test2,
    notebook_split_cell (G:=counting_generator) X12z Y12z 0
      = (Return (X_train1, X_val1, X_test1, Y_train1, Y_val1, Y_test1), 2) ∧
    notebook_split_cell (G:=counting_generator) X12z Y12z 2
      = (Return (X_train2, X_val2, X_test2, Y_train2, Y_val2, Y_test2), 4) ∧
    index X_test1 = [0; 1; 2; 3] ∧ index X_test2 = [2; 3; 4; 5] ∧
    X_test1 ≠ X_test2.
Proof.
  assert (same_draws counting_generator logging_generator (λ g log, length log = g))
    as Hdraws.
  { intros n g log <-. by split. }
  split; [by split|]. split.
  - exact (proj1 (split_cell_follows_the_draws (N:=float_number)
                    counting_generator logging_generator
                    (λ g log, length log = g) (33 # 100) (33 # 100) X3 Y3 0 [])
             Hdraws eq_refl).
  - eexists _, _, _, _, _, _, _, _, _, _, _, _.
    split; [by vm_compute|]. split; [by vm_compute|].
    split; [reflexivity|]. split; [reflexivity|].
    eapply (proj2 (split_cell_follows_the_draws (N:=Z_number)
                     counting_generator counting_generator eq
                     (33 # 100) (33 # 100) X12z Y12z 0 2)
              (seq 0 12) (rotate 2 (seq 0 12)) 1 3).
    + compute_done.
    + reflexivity.
    + reflexivity.
    + by vm_compute.
    + by vm_compute.
    + by vm_compute.
Defined.

(** C6, as stated, fails: the cell takes no seed.  Two runs of the cell in
    one session on the same dataset of twelve rows, with the same fractions,
    the second drawing from the generator as the first left it, return
    different splits. *)
Lemma split_cell_consecutive_runs_differ :
  ∃ out1 g1 out2 g2,
    notebook_split_cell (G:=counting_generator) X12z Y12z 0 = (Return out1, g1) ∧
    notebook_split_cell (G:=counting_generator) X12z Y12z g1 = (Return out2, g2) ∧
    out1 ≠ out2.
Proof.
  eexists _, _, _, _. split; [by vm_compute|]. split; [by vm_compute|].
  by vm_compute.
Qed.

Lemma split_cell_keeps_columns_X3 :
  ∃ X_train X_val X_test Y_train Y_val Y_test g',
    notebook_split_cell (G:=counting_generator) X3 Y3 0
      = (Return (X_train, X_val, X_test, Y_train, Y_val, Y_test), g') ∧
    columns X_train = columns X3 ∧ columns X_val = columns X3 ∧
    columns X_test = columns X3.
Proof.
  eexists _, _, _, _, _, _, _. split; [by vm_compute|].
  eapply (split_cell_keeps_columns (N:=float_number) (G:=counting_generator)
            (33 # 100) (33 # 100) X3 Y3 0).
  by vm_compute.
Defined.

(** With [test_size=0.33] twice, both calls accept their arguments exactly
    when there are at least three rows. *)
Lemma cell_splittable_33 {N : Number} (X Y : DataFrame) :
  length (rows X) = length (rows Y) →
  cell_splittable (33 # 100) (33 # 100) X Y ↔ 3 ≤ length (rows X).
Proof.
  intros Hlen. unfold cell_splittable, splittable. rewrite !n_test_of_33.
  set (n := length (rows X)) in *. split.
  - intros ((_ & _ & _ & H1) & _ & _ & H2).
    destruct n as [|[|[|n]]];
      [vm_compute in H1; lia | vm_compute in H1; lia | vm_compute in H2; lia | lia].
  - intros Hn.
    assert ((33 * n + 99) `div` 100 ≤ n - 2) as Hk.
    { apply Nat.lt_succ_r. apply Nat.Div0.div_lt_upper_bound. lia. }
    split_and!; [done..| | done | done |].
    + lia.
    + apply Nat.Div0.div_lt_upper_bound. lia.
Qed.

(** The split cell of the notebook, from any state of the generator: on
    features and labels of one length it returns six frames when there are
    at least three rows, and raises [ValueError] when there are fewer (the
    training part of one of the two calls would be empty); on features and
    labels of different lengths it raises [ValueError]. *)
Theorem notebook_split_cell_accepts {N : Number} {G : Generator}
    {GL : GeneratorLaws G} (X Y : DataFrame) (g : RandomState) :
  (length (rows X) = length (rows Y) → 3 ≤ length (rows X) →
   ∃ X_train X_val X_test Y_train Y_val Y_test g',
     notebook_split_cell X Y g
     = (Return (X_train, X_val, X_test, Y_train, Y_val, Y_test), g')) ∧
  (length (rows X) = length (rows Y) → length (rows X) < 3 →
   ∃ g', notebook_split_cell X Y g = (Raise ValueError, g')) ∧
  (length (rows X) ≠ length (rows Y) →
   ∃ g', notebook_split_cell X Y g = (Raise ValueError, g')).
Proof.
  unfold notebook_split_cell.
  destruct (split_cell_cases (33 # 100) (33 # 100) X Y g)
    as [(Hs & Xtr & Xval & Xte & Ytr & Yval & Yte & g' & -> & _)|(Hs & g' & ->)].
  - pose proof Hs as ((Hlen & _) & _).
    apply (cell_splittable_33 X Y Hlen) in Hs.
    split_and!; [by eauto 10 | intros; lia | done].
  - split_and!; [|by eauto..].
    intros Hlen Hn. exfalso. apply Hs. by apply cell_splittable_33.
Qed.

(** Three rows are split, two are not. *)
Lemma notebook_split_cell_accepts_X3 :
  (length (rows X3) = length (rows Y3) ∧ 3 ≤ length (rows X3)) ∧
  (∃ X_train X_val X_test Y_train Y_val Y_test g',
     notebook_split_cell (G:=counting_generator) X3 Y3 0
     = (Return (X_train, X_val, X_test, Y_train, Y_val, Y_test), g')) ∧
  (length (rows Xz) = length (rows Yz) ∧ length (rows Xz) < 3) ∧
  ∃ g', notebook_split_cell (G:=counting_generator) Xz Yz 0 = (Raise ValueError, g').
Proof.
  split; [split; [reflexivity|simpl; lia]|]. split.
  - apply (proj1 (notebook_split_cell_accepts (N:=float_number)
                    (G:=counting_generator) (GL:=counting_generator_laws) X3 Y3 0));
      [reflexivity|simpl; lia].
  - split; [split; [reflexivity|simpl; lia]|].
    apply (proj1 (proj2 (notebook_split_cell_accepts (N:=Z_number)
                           (G:=counting_generator) (GL:=counting_generator_laws)
                           Xz Yz 0))); [reflexivity|simpl; lia].
Defined.

(** *** Rows and labels through the split *)

Section splitting_pairs.
Context {N : Number} {G : Generator} {GL : GeneratorLaws G}.
Implicit Types (X Y : DataFrame) (g : RandomState).

(** Selecting positions from two lists selects them from their zip. *)
Lemma mapM_lookup_zip {A B} (l : list A) (k : list B) positions l' k' :
  mapM (λ i, l !! i) positions = Some l' →
  mapM (λ i, k !! i) positions = Some k' →
  mapM (λ i, zip l k !! i) positions = Some (zip l' k').
Proof.
  intros Hl Hk. apply mapM_Some in Hl. apply mapM_Some in Hk. apply mapM_Some.
  revert k' Hk. induction Hl as [|i x ps l' Hx _ IH]; intros k' Hk.
  - inversion Hk. constructor.
  - inversion Hk as [|? y ? k'' Hy Hk']; subst. simpl. constructor; [|by apply IH].
    rewrite lookup_zip_with. by rewrite Hx, Hy.
Qed.

(** One call of [train_test_split] indexes [X] and [Y] with the same
    positions: the pairs of a feature row and its label row are rearranged,
    and the test part has [ceil(test_size * n)] rows. *)
Lemma train_test_split_pairs test_size X Y g X_train X_test Y_train Y_test g' :
  train_test_split X Y test_size g = (Return (X_train, X_test, Y_train, Y_test), g') →
  zip (rows X_train) (rows Y_train) ++ zip (rows X_test) (rows Y_test)
    ≡ₚ zip (rows X) (rows Y) ∧
  length (rows X_test) = n_test_of test_size (length (rows X)) ∧
  length (rows X_train) = length (rows X) - n_test_of test_size (length (rows X)) ∧
  length (rows Y_train) = length (rows X_train) ∧
  length (rows Y_test) = length (rows X_test).
Proof.
  unfold train_test_split.
  case_bool_decide as Hlen; [|done].
  unfold validate_shuffle_split, mbind, state_bind, lift.
  destruct (Qle_bool test_size 0 || Qle_bool 1 test_size); [done|].
  simpl. case_bool_decide as Htrain; [done|].
  set (n := length (rows X)) in *. set (k := n_test_of test_size n) in *.
  destruct (rng_permutation_returns n g) as (p & g1 & -> & Hp).
  destruct (mapM_lookup_split (rows X) p k Hp ltac:(lia))
    as (x1 & x2 & Hx1 & Hx2 & HxP & Hxl1 & Hxl2).
  assert (p ≡ₚ seq 0 (length (rows Y))) as HpY by by rewrite <- Hlen.
  destruct (mapM_lookup_split (rows Y) p k HpY ltac:(lia))
    as (y1 & y2 & Hy1 & Hy2 & HyP & Hyl1 & Hyl2).
  assert (p ≡ₚ seq 0 (length (zip (rows X) (rows Y)))) as HpZ.
  { rewrite length_zip_with. fold n. rewrite <- Hlen. by rewrite Nat.min_id. }
  destruct (mapM_lookup_split (zip (rows X) (rows Y)) p k HpZ
              ltac:(rewrite length_zip_with; lia))
    as (z1 & z2 & Hz1 & Hz2 & HzP & _ & _).
  rewrite length_zip_with, <- Hlen, Nat.min_id in Hz2.
  fold n in Hx2, Hz2. rewrite <- Hlen in Hy2. fold n in Hy2.
  rewrite (mapM_lookup_zip _ _ _ _ _ Hx1 Hy1) in Hz1.
  rewrite (mapM_lookup_zip _ _ _ _ _ Hx2 Hy2) in Hz2.
  injection Hz1 as <-. injection Hz2 as <-.
  rewrite (df_iloc_rows X _ _ Hx2), (df_iloc_rows X _ _ Hx1).
  rewrite (df_iloc_rows Y _ _ Hy2), (df_iloc_rows Y _ _ Hy1).
  simpl. intros [= <- <- <- <- <-]. simpl.
  split_and!; [done|lia..].
Qed.

(** The second call refuses an empty training part. *)
Lemma split_cell_nonempty_train test_size validation_size (X Y : DataFrame) g
    X_train X_val X_test Y_train Y_val Y_test g' :
  split_cell test_size validation_size X Y g
    = (Return (X_train, X_val, X_test, Y_train, Y_val, Y_test), g') →
  0 < length (rows X_train).
Proof.
  unfold split_cell, mbind, state_bind.
  destruct (train_test_split X Y test_size g)
    as [[[[[X1 Xte] Y1] Yte]|] g1] eqn:H1; [|done].
  destruct (train_test_split_cases validation_size X1 Y1 g1)
    as [(Hs & Xtr & Xval & Ytr & Yval & g2 & -> & _ & _ & Hlen & _) | (_ & ->)]; [|done].
  intros [= <- <- <- <- <- <- <-]. destruct Hs as (_ & _ & _ & Hlt). lia.
Qed.

(** The two calls in sequence: the pairs of a feature row and its label row
    are rearranged, and the sizes are those that the fractions fix. *)
Lemma split_cell_pairs test_size validation_size X Y g
    X_train X_val X_test Y_train Y_val Y_test g' :
  split_cell test_size validation_size X Y g
    = (Return (X_train, X_val, X_test, Y_train, Y_val, Y_test), g') →
  zip (rows X_train) (rows Y_train) ++ zip (rows X_val) (rows Y_val)
    ++ zip (rows X_test) (rows Y_test)
  ≡ₚ zip (rows X) (rows Y) ∧
  length (rows X_test) = n_test_of test_size (length (rows X)) ∧
  length (rows X_val)
  = n_test_of validation_size (length (rows X) - length (rows X_test)) ∧
  length (rows X_train)
  = length (rows X) - length (rows X_test) - length (rows X_val) ∧
  length (rows Y_train) = length (rows X_train) ∧
  length (rows Y_val) = length (rows X_val) ∧
  length (rows Y_test) = length (rows X_test).
Proof.
  unfold split_cell, mbind, state_bind.
  destruct (train_test_split X Y test_size g)
    as [[[[[X1 Xte] Y1] Yte]|] g1] eqn:H1; [|done].
  destruct (train_test_split X1 Y1 validation_size g1)
    as [[[[[Xtr Xval] Ytr] Yval]|] g2] eqn:H2; [|done].
  intros [= <- <- <- <- <- <- <-].
  apply train_test_split_pairs in H1 as (HP1 & Hte & Htr & HYtr & HYte).
  apply train_test_split_pairs in H2 as (HP2 & Hval & Htr' & HYtr' & HYval).
  split; [by rewrite app_assoc, HP2|].
  split_and!; [exact Hte | by rewrite Hval, Htr, Hte | | done..].
  rewrite Htr', Hval, Htr, Hte. lia.
Qed.

(** Features and labels stay paired through the split cell.  Whenever the
    cell returns, each label frame has as many rows as its feature frame;
    the feature row and the label row at one position of a split are the
    feature row and the label row at one position of the dataset; and the
    pairs of the three splits together are the pairs of the dataset, each
    once. *)
Theorem split_cell_keeps_pairs test_size validation_size X Y g
    X_train X_val X_test Y_train Y_val Y_test g' :
  split_cell test_size validation_size X Y g
    = (Return (X_train, X_val, X_test, Y_train, Y_val, Y_test), g') →
  (length (rows Y_train) = length (rows X_train) ∧
   length (rows Y_val) = length (rows X_val) ∧
   length (rows Y_test) = length (rows X_test)) ∧
  (∀ i x y,
     (rows X_train !! i = Some x ∧ rows Y_train !! i = Some y) ∨
     (rows X_val !! i = Some x ∧ rows Y_val !! i = Some y) ∨
     (rows X_test !! i = Some x ∧ rows Y_test !! i = Some y) →
     ∃ j, rows X !! j = Some x ∧ rows Y !! j = Some y) ∧
  zip (rows X_train) (rows Y_train) ++ zip (rows X_val) (rows Y_val)
    ++ zip (rows X_test) (rows Y_test)
  ≡ₚ zip (rows X) (rows Y).
Proof.
  intros Hsplit.
  apply split_cell_pairs in Hsplit as (HP & _ & _ & _ & Htr & Hval & Hte).
  split; [done|]. split; [|done].
  intros i x y Hcases.
  assert ((x, y) ∈ zip (rows X) (rows Y)) as Hin.
  { rewrite <- HP. rewrite !elem_of_app.
    destruct Hcases as [[Hx Hy]|[[Hx Hy]|[Hx Hy]]];
      [left | right; left | right; right];
      apply list_elem_of_lookup; exists i; rewrite lookup_zip_with;
      by rewrite Hx, Hy. }
  apply list_elem_of_lookup in Hin as [j Hj]. exists j.
  rewrite lookup_zip_with in Hj.
  destruct (rows X !! j) as [x'|]; [|done]. destruct (rows Y !! j) as [y'|]; [|done].
  simpl in Hj. by injection Hj as -> ->.
Qed.

(** The sizes that [test_size=0.33] twice gives.  Of [n] rows the test split
    takes [ceil(0.33 n)], the validation split [ceil(0.33 (n - test))], and
    the training split the rest, which is never empty and always less than
    half of the dataset (the comment of the cell announces two thirds of two
    thirds); the label frames have the same sizes. *)
Theorem notebook_split_cell_sizes X Y g
    X_train X_val X_test Y_train Y_val Y_test g' :
  notebook_split_cell X Y g
    = (Return (X_train, X_val, X_test, Y_train, Y_val, Y_test), g') →
  let n := length (rows X) in
  let n_test := (33 * n + 99) `div` 100 in
  let n_val := (33 * (n - n_test) + 99) `div` 100 in
  length (rows X_test) = n_test ∧ length (rows X_val) = n_val ∧
  length (rows X_train) = n - n_test - n_val ∧
  length (rows Y_test) = n_test ∧ length (rows Y_val) = n_val ∧
  length (rows Y_train) = n - n_test - n_val ∧
  0 < length (rows X_train) ∧ 2 * length (rows X_train) < n.
Proof.
  intros Hsplit. unfold notebook_split_cell in Hsplit.
  pose proof (split_cell_nonempty_train _ _ _ _ _ _ _ _ _ _ _ _ Hsplit) as Hne.
  apply split_cell_pairs in Hsplit as (_ & Hte & Hval & Htr & HYtr & HYval & HYte).
  rewrite n_test_of_33 in *. rewrite Hte in *.
  cbv zeta.
  set (n := length (rows X)) in *.
  pose proof (Nat.div_mod_eq (33 * n + 99) 100) as E1.
  pose proof (Nat.mod_upper_bound (33 * n + 99) 100 ltac:(lia)) as B1.
  set (t := (33 * n + 99) `div` 100) in *.
  pose proof (Nat.div_mod_eq (33 * (n - t) + 99) 100) as E2.
  pose proof (Nat.mod_upper_bound (33 * (n - t) + 99) 100 ltac:(lia)) as B2.
  set (v := (33 * (n - t) + 99) `div` 100) in *.
  split_and!; lia.
Qed.

End splitting_pairs.

(** The split of three rows of whole numbers: row 1 trains, row 2
    validates, row 0 is held out, each with its own label. *)
Lemma split_cell_keeps_pairs_X3z :
  ∃ X_train X_val X_test Y_train Y_val Y_test g',
    notebook_split_cell (G:=counting_generator) X3z Y3z 0
      = (Return (X_train, X_val, X_test, Y_train, Y_val, Y_test), g') ∧
    index X_train = [1] ∧ index Y_train = [1] ∧
    (length (rows Y_train) = length (rows X_train) ∧
     length (rows Y_val) = length (rows X_val) ∧
     length (rows Y_test) = length (rows X_test)) ∧
    (∀ i x y,
       (rows X_train !! i = Some x ∧ rows Y_train !! i = Some y) ∨
       (rows X_val !! i = Some x ∧ rows Y_val !! i = Some y) ∨
       (rows X_test !! i = Some x ∧ rows Y_test !! i = Some y) →
       ∃ j, rows X3z !! j = Some x ∧ rows Y3z !! j = Some y) ∧
    zip (rows X_train) (rows Y_train) ++ zip (rows X_val) (rows Y_val)
      ++ zip (rows X_test) (rows Y_test)
    ≡ₚ zip (rows X3z) (rows Y3z).
Proof.
  eexists _, _, _, _, _, _, _. split; [by vm_compute|].
  split; [reflexivity|]. split; [reflexivity|].
  eapply (split_cell_keeps_pairs (N:=Z_number) (G:=counting_generator)
            (GL:=counting_generator_laws) (33 # 100) (33 # 100) X3z Y3z 0).
  by vm_compute.
Defined.

(** Of three rows one is held out, one validates and one trains. *)
Lemma notebook_split_cell_sizes_X3z :
  ∃ X_train X_val X_test Y_train Y_val Y_test g',
    notebook_split_cell (G:=counting_generator) X3z Y3z 0
      = (Return (X_train, X_val, X_test, Y_train, Y_val, Y_test), g') ∧
    let n := length (rows X3z) in
    let n_test := (33 * n + 99) `div` 100 in
    let n_val := (33 * (n - n_test) + 99) `div` 100 in
    length (rows X_test) = n_test ∧ length (rows X_val) = n_val ∧
    length (rows X_train) = n - n_test - n_val ∧
    length (rows Y_test) = n_test ∧ length (rows Y_val) = n_val ∧
    length (rows Y_train) = n - n_test - n_val ∧
    0 < length (rows X_train) ∧ 2 * length (rows X_train) < n.
Proof.
  eexists _, _, _, _, _, _, _. split; [by vm_compute|].
  eapply (notebook_split_cell_sizes (N:=Z_number) (G:=counting_generator)
            (GL:=counting_generator_laws) X3z Y3z 0).
  by vm_compute.
Defined.

(** ** Scoring *)

Section scoring_lemmas.
Context {N : Number} {G : Generator} {L : Learners}.
Implicit Types (X_train : DataFrame).

Lemma print_scores_zip (scores : list num) (cols : list label) k :
  length scores ≤ length cols →
  mapM (λ '(index, importance_score),
          (λ feature, (feature, importance_score)) <$> (k ++ cols) !! index)
       (imap (pair ∘ (λ i, length k + i)) scores)
  = Some (zip cols scores).
Proof.
  revert cols k. induction scores as [|s scores IH]; intros cols k Hlen.
  - by destruct cols.
  - destruct cols as [|c cols]; simpl in Hlen; [lia|].
    apply mapM_Some. simpl. constructor.
    + rewrite Nat.add_0_r, list_lookup_middle by done. done.
    + apply mapM_Some. specialize (IH cols (k ++ [c]) ltac:(lia)).
      rewrite <- app_assoc in IH. simpl in IH. rewrite <- IH.
      f_equal. apply imap_ext. intros i x _. simpl.
      rewrite length_app. simpl. f_equal. lia.
Qed.

Lemma print_scores_all (scores : list num) (cols : list label) :
  length scores ≤ length cols →
  mapM (λ '(index, importance_score),
          (λ feature, (feature, importance_score)) <$> cols !! index)
       (imap pair scores)
  = Some (zip cols scores).
Proof. intros Hlen. exact (print_scores_zip scores cols [] Hlen). Qed.

(** The sample that both cells fit on has the shape of the training
    split. *)
Lemma make_regression_of_shape {LL : LearnersLaws L} X_train :
  length (make_regression (shape X_train).1 (shape X_train).2 10 1).1
    = length (rows X_train) ∧
  Forall (λ row, length row = length (columns X_train))
    (make_regression (shape X_train).1 (shape X_train).2 10 1).1.
Proof.
  unfold shape. simpl.
  by pose proof (make_regression_shape (length (rows X_train))
                   (length (columns X_train)) 10 1) as (Hn & Hm & _).
Qed.


(** C10, as the code has it.  Both cells read of the training split its
    shape only.  For two training splits of one shape, whatever their cells
    and labels, the gradient-boosting scores are the same list, and the
    permutation scores are the same list (and leave the generator in the
    same state) when the two runs start from the same state of the global
    generator. *)
Theorem scores_depend_on_shape_only X_train X_train' :
  shape X_train = shape X_train' →
  feature_importances_xgboost_cell X_train
    = feature_importances_xgboost_cell X_train' ∧
  ∀ g, feature_importances_permutations_cell X_train g
       = feature_importances_permutations_cell X_train' g.
Proof.
  unfold feature_importances_xgboost_cell, feature_importances_permutations_cell.
  by intros ->.
Qed.

End scoring_lemmas.

Lemma n_features_rows (X : list (list Z)) m :
  X ≠ [] → Forall (λ row, length row = m) X → n_features X = m.
Proof. intros Hne HX. destruct X as [|row X]; [done|]. by inversion HX. Qed.

Lemma numbering_learners_laws : LearnersLaws numbering_learners.
Proof.
  split; simpl.
  - intros n m _ r. rewrite !length_fmap, !length_seq. split_and!; [done| |done].
    apply Forall_fmap, Forall_forall. intros i _. simpl.
    by rewrite length_fmap, length_seq.
  - intros X y m Hne HX. by rewrite length_fmap, length_seq, (n_features_rows X m).
  - intros X y m scoring g Hfive HX.
    destruct (length X <? 5) eqn:E; [apply Nat.ltb_lt in E; lia|].
    eexists _, _. split; [reflexivity|].
    rewrite length_fmap, length_seq. apply n_features_rows; [|done].
    intros ->. simpl in Hfive. lia.
  - intros X y scoring g [_ Hfew]. exists g.
    by rewrite (proj2 (Nat.ltb_lt _ _) Hfew).
Qed.


(** Two training splits of eight rows and two columns, with different
    cells: the same scores, from whatever state of the generator. *)
Lemma scores_depend_on_shape_only_Xz8 :
  shape Xz8 = shape Xz8' ∧ values Xz8 ≠ values Xz8' ∧
  feature_importances_xgboost_cell (L:=numbering_learners) Xz8
    = feature_importances_xgboost_cell (L:=numbering_learners) Xz8' ∧
  ∀ g, feature_importances_permutations_cell (L:=numbering_learners) Xz8 g
       = feature_importances_permutations_cell (L:=numbering_learners) Xz8' g.
Proof.
  split; [reflexivity|]. split; [discriminate|].
  apply (scores_depend_on_shape_only (L:=numbering_learners) Xz8 Xz8'). reflexivity.
Defined.

(** C10, as stated, fails for the permutation scores: two runs of the cell
    in one session, on training splits of eight rows and one shape, the
    second run starting from the generator as the first left it, return
    different score lists, the shuffles of the second run being other
    shuffles. *)
Lemma permutation_scores_differ_between_runs :
  shape Xz8 = shape Xz8' ∧
  ∃ imp1 g1 imp2 g2,
    feature_importances_permutations_cell (L:=numbering_learners) Xz8 0
      = (Return imp1, g1) ∧
    feature_importances_permutations_cell (L:=numbering_learners) Xz8' g1
      = (Return imp2, g2) ∧
    imp1 ≠ imp2.
Proof.
  split; [reflexivity|]. eexists _, _, _, _.
  split; [vm_compute; reflexivity|]. split; [vm_compute; reflexivity|]. by vm_compute.
Qed.

(** C2, at a training split.  The gradient-boosting cell hands to [fit] the
    sample of [make_regression], not the split: the scores it returns for
    [Xz] are those of the sample, they are not the scores of a model fitted
    on [Xz] and its labels [Yz], and they do not change when every cell of
    the split does. *)
Theorem xgboost_scores_not_of_training_data :
  feature_importances_xgboost_cell (L:=numbering_learners) Xz
    = xgb_feature_importances_ (Learners:=numbering_learners)
        (xgb_fit (Learners:=numbering_learners)
           (make_regression (Learners:=numbering_learners) 2 2 10 1).1
           (make_regression (Learners:=numbering_learners) 2 2 10 1).2) ∧
  feature_importances_xgboost_cell (L:=numbering_learners) Xz = [3; 4]%Z ∧
  importances_of_training_data (L:=numbering_learners) Xz Yz = [230; 340]%Z ∧
  feature_importances_xgboost_cell (L:=numbering_learners) Xz
    ≠ importances_of_training_data (L:=numbering_learners) Xz Yz ∧
  feature_importances_xgboost_cell (L:=numbering_learners) Xz'
    = feature_importances_xgboost_cell (L:=numbering_learners) Xz.
Proof. split_and!; by vm_compute. Qed.

(** *** The print loop *)

Section printing_lemmas.
Context {N : Number}.

(** The print loop of the scoring cells indexes [X_train.columns] with the
    position of each score.  With no more scores than columns it prints
    score [j] beside column [j] and stops after the last score; with more
    scores than columns it raises [IndexError]. *)
Theorem print_scores_index_error (feature_importances : list num) (X_train : DataFrame) :
  (length feature_importances ≤ length (columns X_train) →
   print_scores feature_importances X_train
     = Return (zip (columns X_train) feature_importances)) ∧
  (length (columns X_train) < length feature_importances →
   print_scores feature_importances X_train = Raise IndexError).
Proof.
  unfold print_scores. split; intros Hlen.
  - by rewrite print_scores_all.
  - destruct (mapM _ _) as [printed|] eqn:Hm; [|done]. exfalso.
    apply mapM_Some in Hm.
    destruct (lookup_lt_is_Some_2 feature_importances (length (columns X_train)) Hlen)
      as [s Hs].
    assert (imap pair feature_importances !! length (columns X_train)
            = Some (length (columns X_train), s)) as Hi.
    { by rewrite list_lookup_imap, Hs. }
    destruct (Forall2_lookup_l _ _ _ _ _ Hm Hi) as (y & _ & Hy).
    simpl in Hy. rewrite (lookup_ge_None_2 (columns X_train)) in Hy; [done|lia].
Qed.

End printing_lemmas.

(** Two scores for the two columns of [Xz] are printed; a third score has
    no column to be printed with. *)
Lemma print_scores_index_error_Xz :
  print_scores (N:=Z_number) [3; 4]%Z Xz = Return [(a, 3%Z); (b, 4%Z)] ∧
  print_scores (N:=Z_number) [3; 4; 5]%Z Xz = Raise IndexError ∧
  (length [3; 4]%Z ≤ length (columns Xz) →
   print_scores (N:=Z_number) [3; 4]%Z Xz = Return (zip (columns Xz) [3; 4]%Z)) ∧
  (length (columns Xz) < length [3; 4; 5]%Z →
   print_scores (N:=Z_number) [3; 4; 5]%Z Xz = Raise IndexError).
Proof.
  split; [by vm_compute|]. split; [by vm_compute|]. split.
  - apply (print_scores_index_error (N:=Z_number) [3; 4]%Z Xz).
  - apply (print_scores_index_error (N:=Z_number) [3; 4; 5]%Z Xz).
Defined.

(** ** Ranking *)

Section ranking_lemmas.
Context {N : Number} {SWO : StrictWeakOrder N} {A : Type} (key : A → num).
Implicit Types (l : list A) (x y : A).

Lemma insert_by_perm x l : insert_by key x l ≡ₚ x :: l.
Proof.
  induction l as [|y l IH]; simpl; [done|].
  destruct (num_lt (key y) (key x)); [|done].
  rewrite IH. apply Permutation_swap.
Qed.

Lemma stable_sort_perm l : stable_sort key l ≡ₚ l.
Proof.
  induction l as [|x l IH]; simpl; [done|].
  by rewrite insert_by_perm, IH.
Qed.

Lemma insert_by_sorted x l :
  StronglySorted (ascending key) l → StronglySorted (ascending key) (insert_by key x l).
Proof.
  induction 1 as [|y l Hl IH Hy]; simpl.
  - repeat constructor.
  - destruct (num_lt (key y) (key x)) eqn:E.
    + constructor; [done|].
      rewrite insert_by_perm. constructor; [|done].
      unfold ascending. by apply num_lt_asym.
    + constructor; [by constructor|]. constructor; [done|].
      eapply Forall_impl; [exact Hy|]. unfold ascending. intros z Hz.
      by apply (num_lt_negtrans _ (key y)).
Qed.

Lemma stable_sort_sorted l : StronglySorted (ascending key) (stable_sort key l).
Proof.
  induction l as [|x l IH]; simpl; [constructor|]. by apply insert_by_sorted.
Qed.

(** Insertion does not reorder tied elements: [x], which stood first, stays
    in front of every element it is tied with. *)
Lemma insert_by_stable s x l :
  filter (λ y, tied s (key y)) (insert_by key x l)
  = filter (λ y, tied s (key y)) (x :: l).
Proof.
  induction l as [|y l IH]; simpl; [done|].
  destruct (num_lt (key y) (key x)) eqn:E; [|done].
  rewrite (filter_cons _ y), IH, !filter_cons.
  destruct (decide (tied s (key x))) as [[Hx1 Hx2]|Hx]; [|done].
  destruct (decide (tied s (key y))) as [[Hy1 Hy2]|Hy]; [|done].
  rewrite (num_lt_negtrans _ _ _ Hy2 Hx1) in E. done.
Qed.

Lemma stable_sort_stable s l :
  filter (λ y, tied s (key y)) (stable_sort key l) = filter (λ y, tied s (key y)) l.
Proof.
  induction l as [|x l IH]; simpl; [done|].
  by rewrite insert_by_stable, !filter_cons, IH.
Qed.

Lemma StronglySorted_reverse (R : relation A) l :
  StronglySorted R l → StronglySorted (flip R) (reverse l).
Proof.
  induction 1 as [|x l Hl IH Hx]; [constructor|].
  rewrite reverse_cons. apply StronglySorted_app_2; [|done|repeat constructor].
  intros x1 x2 Hx1 Hx2. apply list_elem_of_singleton in Hx2 as ->.
  rewrite elem_of_reverse in Hx1. unfold flip.
  rewrite Forall_forall in Hx. by apply Hx.
Qed.

Lemma StronglySorted_lookup (R : relation A) l i j x y :
  StronglySorted R l → i < j → l !! i = Some x → l !! j = Some y → R x y.
Proof.
  intros Hl. revert i j. induction Hl as [|z l Hl IH Hz]; intros i j Hij Hi Hj.
  - done.
  - destruct j as [|j]; [lia|]. simpl in Hj. destruct i as [|i].
    + injection Hi as ->. rewrite Forall_forall in Hz.
      apply Hz. by eapply list_elem_of_lookup_2.
    + simpl in Hi. eapply (IH i j); [lia|done..].
Qed.

Lemma sorted_reverse_perm l : sorted l key true ≡ₚ l.
Proof.
  unfold sorted. by rewrite reverse_Permutation, stable_sort_perm, reverse_Permutation.
Qed.

(** With [reverse=True] no element is followed by one with a larger key. *)
Lemma sorted_reverse_descending l i j x y :
  i < j → sorted l key true !! i = Some x → sorted l key true !! j = Some y →
  num_lt (key x) (key y) = false.
Proof.
  intros Hij Hi Hj.
  by apply (StronglySorted_lookup (flip (ascending key)) _ i j x y
              (StronglySorted_reverse _ _ (stable_sort_sorted (reverse l)))).
Qed.

(** With [reverse=True] tied elements keep the order they had in [l]. *)
Lemma sorted_reverse_stable s l :
  filter (λ y, tied s (key y)) (sorted l key true) = filter (λ y, tied s (key y)) l.
Proof.
  unfold sorted.
  by rewrite filter_reverse, stable_sort_stable, filter_reverse, reverse_involutive.
Qed.

End ranking_lemmas.

(** The rationals are ordered strictly and weakly by [<]. *)
Lemma Q_strict_weak_order : StrictWeakOrder Q_number.
Proof.
  split; simpl.
  - intros x y Hxy. apply negb_false_iff, Qle_bool_iff.
    apply negb_true_iff, not_true_iff_false in Hxy.
    rewrite Qle_bool_iff in Hxy. apply Qlt_le_weak. by apply Qnot_le_lt.
  - intros x y z Hxy Hyz.
    apply negb_false_iff, Qle_bool_iff in Hxy.
    apply negb_false_iff, Qle_bool_iff in Hyz.
    apply negb_false_iff, Qle_bool_iff. by eapply Qle_trans.
Qed.

(** C4.  For every frame and score list (scores ordered strictly and weakly
    by [<], that is, without NaN), the ranked list is the list of
    (feature, score) pairs in column order rearranged so that the scores
    descend: no pair is followed by a pair with a larger score; and pairs
    with tied scores stand in the ranked list in the order of their
    columns.  The ranked list is a function of the columns and the scores. *)
Theorem ranked_list_descending_and_stable {N : Number} {SWO : StrictWeakOrder N}
    (scores : list num) (data : DataFrame) :
  show_ranked_feature_importance_list scores data ≡ₚ zip (columns data) scores ∧
  (∀ i j p q,
     i < j →
     show_ranked_feature_importance_list scores data !! i = Some p →
     show_ranked_feature_importance_list scores data !! j = Some q →
     num_lt p.2 q.2 = false) ∧
  (∀ s,
     filter (λ p, tied s p.2) (show_ranked_feature_importance_list scores data)
     = filter (λ p, tied s p.2) (zip (columns data) scores)).
Proof.
  unfold show_ranked_feature_importance_list. split_and!.
  - apply sorted_reverse_perm.
  - intros i j p q. apply (sorted_reverse_descending (λ t : label * num, t.2)).
  - intros s. apply (sorted_reverse_stable (λ t : label * num, t.2)).
Qed.

(** The example of the specification: [A], [B], [C] with the scores
    [0.5], [0.5], [0.2] rank as [A], [B], [C]; and with the scores
    [0.2], [0.5], [0.5] as [B], [C], [A]. *)
Lemma ranked_list_ABC :
  show_ranked_feature_importance_list (N:=Q_number) [1#2; 1#2; 1#5]%Q frame_ABC
  = [(Name "A", 1#2); (Name "B", 1#2); (Name "C", 1#5)]%Q ∧
  show_ranked_feature_importance_list (N:=Q_number) [1#5; 1#2; 1#2]%Q frame_ABC
  = [(Name "B", 1#2); (Name "C", 1#2); (Name "A", 1#5)]%Q ∧
  (show_ranked_feature_importance_list (N:=Q_number) [1#2; 1#2; 1#5]%Q frame_ABC
     ≡ₚ zip (columns frame_ABC) [1#2; 1#2; 1#5]%Q ∧
   (∀ i j p q,
      i < j →
      show_ranked_feature_importance_list (N:=Q_number) [1#2; 1#2; 1#5]%Q frame_ABC !! i
        = Some p →
      show_ranked_feature_importance_list (N:=Q_number) [1#2; 1#2; 1#5]%Q frame_ABC !! j
        = Some q →
      num_lt p.2 q.2 = false) ∧
   (∀ s,
      filter (λ p, tied s p.2)
        (show_ranked_feature_importance_list (N:=Q_number) [1#2; 1#2; 1#5]%Q frame_ABC)
      = filter (λ p, tied s p.2) (zip (columns frame_ABC) [1#2; 1#2; 1#5]%Q))).
Proof.
  split; [reflexivity | split; [reflexivity |]].
  exact (ranked_list_descending_and_stable (N:=Q_number) (SWO:=Q_strict_weak_order)
           [1#2; 1#2; 1#5]%Q frame_ABC).
Defined.

(** *** Ranking what is ranked *)

Section ranking_fixed.
Context {N : Number} {SWO : StrictWeakOrder N}.

(** Sorting leaves an ascending list as it is. *)
Lemma stable_sort_ascending {A} (key : A → num) (l : list A) :
  StronglySorted (ascending key) l → stable_sort key l = l.
Proof.
  induction 1 as [|x l Hl IH Hx]; simpl; [done|].
  rewrite IH. destruct l as [|y l']; simpl; [done|].
  inversion Hx as [|? ? Hxy _]; subst. unfold ascending in Hxy. by rewrite Hxy.
Qed.

(** [sorted(l, key=, reverse=True)] leaves a descending list as it is. *)
Lemma sorted_reverse_descending_fixed {A} (key : A → num) (l : list A) :
  StronglySorted (flip (ascending key)) l → sorted l key true = l.
Proof.
  intros Hl. unfold sorted.
  apply (StronglySorted_reverse (flip (ascending key))) in Hl.
  rewrite stable_sort_ascending; [by rewrite reverse_involutive|].
  exact Hl.
Qed.

Lemma sorted_reverse_is_descending {A} (key : A → num) (l : list A) :
  StronglySorted (flip (ascending key)) (sorted l key true).
Proof.
  unfold sorted.
  pose proof (StronglySorted_reverse (ascending key) _
                (stable_sort_sorted key (reverse l))) as H.
  exact H.
Qed.

(** Scores that already descend in column order (ties allowed) are ranked
    as they stand: the ranked list is the columns paired with their scores.
    And ranking is idempotent: handing the features and scores of a ranked
    list to the function again returns the same list. *)
Theorem ranking_is_idempotent (scores : list num) (data : DataFrame) :
  (StronglySorted (λ s k, num_lt s k = false) scores →
   show_ranked_feature_importance_list scores data = zip (columns data) scores) ∧
  let ranked_lst := show_ranked_feature_importance_list scores data in
  show_ranked_feature_importance_list ranked_lst.*2
    {| columns := ranked_lst.*1; rows := rows data |}
  = ranked_lst.
Proof.
  split.
  - intros Hs. unfold show_ranked_feature_importance_list.
    apply sorted_reverse_descending_fixed.
    revert Hs. generalize (columns data) as cols.
    induction scores as [|s scores IH]; intros cols Hs.
    + destruct cols; constructor.
    + destruct cols as [|c cols]; [constructor|]. simpl.
      inversion Hs as [|? ? Hs' Hall]; subst. constructor; [by apply IH|].
      apply Forall_forall. intros [c' k] Hin.
      apply elem_of_zip_r in Hin. simpl in Hin.
      rewrite Forall_forall in Hall. unfold flip, ascending. simpl. by apply Hall.
  - cbv zeta. unfold show_ranked_feature_importance_list at 1. simpl.
    rewrite zip_fst_snd. apply sorted_reverse_descending_fixed.
    apply sorted_reverse_is_descending.
Qed.

End ranking_fixed.

(** Scores that descend in column order are ranked as they stand, ties
    included; and the ranking of [1/5, 1/2, 1/2] ranks again to itself. *)
Lemma ranking_is_idempotent_ABC :
  StronglySorted (λ s k, num_lt (Number:=Q_number) s k = false) [1#2; 1#2; 1#5]%Q ∧
  show_ranked_feature_importance_list (N:=Q_number) [1#2; 1#2; 1#5]%Q frame_ABC
    = zip (columns frame_ABC) [1#2; 1#2; 1#5]%Q ∧
  let ranked_lst :=
    show_ranked_feature_importance_list (N:=Q_number) [1#5; 1#2; 1#2]%Q frame_ABC in
  show_ranked_feature_importance_list (N:=Q_number) ranked_lst.*2
    {| columns := ranked_lst.*1; rows := rows frame_ABC |}
  = ranked_lst.
Proof.
  assert (StronglySorted (λ s k, num_lt (Number:=Q_number) s k = false)
            [1#2; 1#2; 1#5]%Q) as Hs by (repeat constructor).
  split; [exact Hs|]. split.
  - exact (proj1 (ranking_is_idempotent (N:=Q_number) (SWO:=Q_strict_weak_order)
                    [1#2; 1#2; 1#5]%Q frame_ABC) Hs).
  - exact (proj2 (ranking_is_idempotent (N:=Q_number) (SWO:=Q_strict_weak_order)
                    [1#5; 1#2; 1#2]%Q frame_ABC)).
Defined.

(** ** Pruning *)

Section pruning_lemmas.
Context {N : Number}.
Implicit Types (h : gmap loc DataFrame) (df : DataFrame) (lst : list num)
  (cols : list label).

Lemma features_to_remove_loop lst (ps : list (label * num)) threshold acc :
  fold_left
    (λ acc (pair : label * num),
       if num_le pair.2 threshold then acc ++ [pair.1] else acc) ps acc
  = acc ++ (filter (λ pair : label * num, num_le pair.2 threshold = true) ps).*1.
Proof.
  revert acc. induction ps as [|[c s] ps IH]; intros acc; simpl.
  - by rewrite app_nil_r.
  - rewrite IH. rewrite filter_cons. simpl.
    destruct (num_le s threshold) eqn:E.
    + rewrite decide_True by done. simpl. by rewrite <- app_assoc.
    + rewrite decide_False by done. done.
Qed.

(** The loop collects the labels whose score is at most the threshold, in
    column order. *)
Lemma features_to_remove_filter lst cols threshold :
  features_to_remove lst cols threshold
  = (filter (λ pair : label * num, num_le pair.2 threshold = true) (zip cols lst)).*1.
Proof. unfold features_to_remove. by rewrite features_to_remove_loop. Qed.

Lemma features_to_remove_columns lst cols threshold c :
  c ∈ features_to_remove lst cols threshold → c ∈ cols.
Proof.
  rewrite features_to_remove_filter. intros Hc.
  apply list_elem_of_fmap in Hc as [[c' s] [-> Hin]].
  apply list_elem_of_filter in Hin as [_ Hin].
  simpl. revert lst Hin. induction cols as [|c0 cols IH]; intros lst Hin.
  - simpl in Hin. by apply elem_of_nil in Hin.
  - destruct lst as [|s0 lst]; simpl in Hin.
    + by apply elem_of_nil in Hin.
    + apply elem_of_cons in Hin as [Heq | Hin].
      * injection Heq as -> ->. left.
      * right. by eapply IH.
Qed.

(** Every label the loop collects is a column, so the drop finds them all. *)
Lemma df_drop_features_to_remove lst df threshold :
  ∃ df', df_drop (features_to_remove lst (columns df) threshold) df = Return df'.
Proof.
  unfold df_drop.
  destruct (forallb _ _) eqn:E; [eauto|].
  exfalso. apply not_true_iff_false in E. apply E.
  apply forallb_forall. intros c Hc. apply bool_decide_eq_true.
  apply list_elem_of_In in Hc. by eapply features_to_remove_columns.
Qed.

Lemma keep_cells_columns (cols labels : list label) :
  keep_cells ((λ c, bool_decide (c ∉ labels)) <$> cols) cols
  = filter (λ c, c ∉ labels) cols.
Proof.
  induction cols as [|c cols IH]; csimpl; [done|].
  rewrite filter_cons. case_bool_decide.
  - rewrite decide_True by done. by rewrite IH.
  - rewrite decide_False by (intros Hc; by apply Hc). done.
Qed.

(** The columns of the frame that [df.drop] returns. *)
Lemma df_drop_columns labels df df' :
  df_drop labels df = Return df' →
  columns df' = filter (λ c, c ∉ labels) (columns df).
Proof.
  unfold df_drop. destruct (forallb _ _); [|done].
  intros [= <-]. apply keep_cells_columns.
Qed.

Lemma filter_ext_elem_of {A} (P Q : A → Prop)
    `{∀ x, Decision (P x)} `{∀ x, Decision (Q x)} (l : list A) :
  (∀ x, x ∈ l → (P x ↔ Q x)) → filter P l = filter Q l.
Proof.
  induction l as [|x l IH]; intros HPQ; [done|].
  rewrite !filter_cons.
  rewrite IH by (intros y Hy; apply HPQ; by right).
  destruct (decide (P x)) as [HP|HP], (decide (Q x)) as [HQ|HQ]; try done;
    exfalso; apply (HPQ x ltac:(left)) in HP || apply (HPQ x ltac:(left)) in HQ; done.
Qed.

(** What stays when the collected labels go is what the docstring keeps. *)
Lemma filter_not_removed lst cols threshold :
  NoDup cols → length cols ≤ length lst →
  filter (λ c, c ∉ features_to_remove lst cols threshold) cols
  = kept_features lst cols threshold.
Proof.
  unfold kept_features. intros Hnd. revert lst.
  induction Hnd as [|c cols Hc Hnd IH]; intros lst Hlen; [done|].
  destruct lst as [|s lst]; simpl in Hlen; [lia|].
  pose proof (features_to_remove_columns lst cols threshold) as Hsub.
  specialize (IH lst ltac:(lia)).
  rewrite features_to_remove_filter in *.
  change (zip (c :: cols) (s :: lst)) with ((c, s) :: zip cols lst).
  destruct (num_le s threshold) eqn:E.
  - rewrite (filter_cons_True (λ pair : label * num, num_le pair.2 threshold = true))
      by done.
    rewrite (filter_cons_False (λ pair : label * num, num_le pair.2 threshold = false))
      by (simpl; congruence).
    rewrite fmap_cons. cbn [fst].
    rewrite filter_cons_False by (intros Hn; apply Hn; left).
    rewrite <- IH. apply filter_ext_elem_of.
    intros c' Hc'. rewrite not_elem_of_cons.
    split; [tauto|]. intros ?. split; [|done]. by intros ->.
  - rewrite (filter_cons_False (λ pair : label * num, num_le pair.2 threshold = true))
      by (simpl; congruence).
    rewrite (filter_cons_True (λ pair : label * num, num_le pair.2 threshold = false))
      by done.
    rewrite fmap_cons. cbn [fst].
    rewrite filter_cons_True by (intros Hin; by apply Hc, Hsub).
    by rewrite IH.
Qed.

(** One call of [remove_features] on a live reference: it returns, and the
    store afterwards is the store before, plus at most one new frame at a
    location that was free. *)
Lemma remove_features_run lst data threshold h df :
  h !! data = Some df →
  remove_features lst data threshold h = (Return (), h) ∨
  ∃ df', h !! fresh (dom h) = None ∧
    df_drop (features_to_remove lst (columns df) threshold) df = Return df' ∧
    remove_features lst data threshold h = (Return (), <[fresh (dom h) := df']> h).
Proof.
  intros Hdata. unfold remove_features, mbind, state_bind, deref. rewrite Hdata.
  destruct (features_to_remove lst (columns df) threshold) as [|c cs] eqn:E.
  - by left.
  - right. unfold drop_axis1, mbind, state_bind, deref. rewrite Hdata.
    destruct (df_drop_features_to_remove lst df threshold) as [df' Hdrop].
    rewrite E in Hdrop. rewrite Hdrop. exists df'. split_and!; [|done..].
    apply not_elem_of_dom. apply is_fresh.
Qed.

Lemma remove_features_preserves lst data threshold h df :
  h !! data = Some df →
  ∃ h', remove_features lst data threshold h = (Return (), h') ∧
        ∀ l d, h !! l = Some d → h' !! l = Some d.
Proof.
  intros Hdata.
  destruct (remove_features_run lst data threshold h df Hdata)
    as [-> | (df' & Hfresh & _ & ->)]; eexists; split; try done.
  intros l d Hl. rewrite lookup_insert_ne; [done|]. congruence.
Qed.

Lemma prune_cell_run lst threshold (X_train X_val X_test : loc) h d1 d2 d3 :
  h !! X_train = Some d1 → h !! X_val = Some d2 → h !! X_test = Some d3 →
  ∃ h', prune_cell lst threshold X_train X_val X_test h = (Return (), h') ∧
        ∀ l d, h !! l = Some d → h' !! l = Some d.
Proof.
  intros H1 H2 H3. unfold prune_cell, mbind, state_bind.
  destruct (remove_features_preserves lst X_train threshold h d1 H1) as (h1 & -> & F1).
  destruct (remove_features_preserves lst X_val threshold h1 d2 (F1 _ _ H2)) as (h2 & -> & F2).
  destruct (remove_features_preserves lst X_test threshold h2 d3 (F2 _ _ (F1 _ _ H3)))
    as (h3 & -> & F3).
  exists h3. split; [done|]. intros l d Hl. by apply F3, F2, F1.
Qed.

(** The frame that [data.drop] builds inside [remove_features] is the frame
    of the docstring: when the column names are distinct and every column
    has a score, the drop succeeds and its result has exactly the columns
    whose score is above the threshold, in column order. *)
Theorem df_drop_builds_kept_features lst df threshold :
  NoDup (columns df) → length (columns df) ≤ length lst →
  ∃ df', df_drop (features_to_remove lst (columns df) threshold) df = Return df' ∧
         columns df' = kept_features lst (columns df) threshold.
Proof.
  intros Hnd Hlen.
  destruct (df_drop_features_to_remove lst df threshold) as [df' Hdrop].
  exists df'. split; [done|].
  rewrite (df_drop_columns _ _ _ Hdrop). by apply filter_not_removed.
Qed.

(** With a threshold below every score the loop selects no label, [drop] is
    not called, and the store after the call is the store before it. *)
Theorem remove_features_below_every_score lst data threshold h df :
  h !! data = Some df →
  Forall (λ s, num_le s threshold = false) lst →
  features_to_remove lst (columns df) threshold = [] ∧
  remove_features lst data threshold h = (Return (), h).
Proof.
  intros Hdata Hlst.
  assert (features_to_remove lst (columns df) threshold = []) as Hnone.
  { rewrite features_to_remove_filter. generalize (columns df) as cols.
    induction Hlst as [|s lst Hs Hlst IH]; intros [|c cols]; try done.
    simpl. rewrite filter_cons_False by (simpl; congruence). apply IH. }
  split; [done|].
  unfold remove_features, mbind, state_bind, deref. by rewrite Hdata, Hnone.
Qed.

(** C9.  For every frame, score list and threshold, [remove_features]
    returns nothing (it returns normally, with [None]) and the frame passed
    as [data] is afterwards what it was before: the same columns in the same
    order and the same rows.  The frame that [data.drop] builds is a new
    object that the function discards, so every frame of the store is
    unchanged. *)
Theorem remove_features_leaves_data_unchanged lst data threshold h df :
  h !! data = Some df →
  ∃ h', remove_features lst data threshold h = (Return (), h') ∧
        h' !! data = Some df ∧
        ∀ l d, h !! l = Some d → h' !! l = Some d.
Proof.
  intros Hdata.
  destruct (remove_features_preserves lst data threshold h df Hdata) as (h' & Hrun & Hframe).
  exists h'. split_and!; [done| |done]. by apply Hframe.
Qed.

(** C3.  When the pruning cell runs on three frames with the same columns,
    with one score list and one threshold, the list of feature names it
    selects for removal is the same for each of them, the frames that the
    three [drop] calls build have the same columns in the same order, and
    after the cell the three frames of the store have the same columns in
    the same order. *)
Theorem prune_cell_removes_same_features lst threshold (X_train X_val X_test : loc)
    h d1 d2 d3 :
  h !! X_train = Some d1 → h !! X_val = Some d2 → h !! X_test = Some d3 →
  columns d1 = columns d2 → columns d2 = columns d3 →
  (features_to_remove lst (columns d2) threshold
     = features_to_remove lst (columns d1) threshold ∧
   features_to_remove lst (columns d3) threshold
     = features_to_remove lst (columns d1) threshold) ∧
  (∃ e1 e2 e3,
     df_drop (features_to_remove lst (columns d1) threshold) d1 = Return e1 ∧
     df_drop (features_to_remove lst (columns d2) threshold) d2 = Return e2 ∧
     df_drop (features_to_remove lst (columns d3) threshold) d3 = Return e3 ∧
     columns e1 = columns e2 ∧ columns e2 = columns e3) ∧
  ∃ h' d1' d2' d3',
     prune_cell lst threshold X_train X_val X_test h = (Return (), h') ∧
     h' !! X_train = Some d1' ∧ h' !! X_val = Some d2' ∧ h' !! X_test = Some d3' ∧
     columns d1' = columns d2' ∧ columns d2' = columns d3'.
Proof.
  intros H1 H2 H3 E12 E23. split_and!.
  - by rewrite E12.
  - by rewrite <- E23, <- E12.
  - destruct (df_drop_features_to_remove lst d1 threshold) as [e1 He1].
    destruct (df_drop_features_to_remove lst d2 threshold) as [e2 He2].
    destruct (df_drop_features_to_remove lst d3 threshold) as [e3 He3].
    exists e1, e2, e3. split_and!; [done..| |].
    + rewrite (df_drop_columns _ _ _ He1), (df_drop_columns _ _ _ He2). by rewrite E12.
    + rewrite (df_drop_columns _ _ _ He2), (df_drop_columns _ _ _ He3). by rewrite E23.
  - destruct (prune_cell_run lst threshold X_train X_val X_test h d1 d2 d3 H1 H2 H3)
      as (h' & Hrun & Hframe).
    exists h', d1, d2, d3. split_and!; auto.
Qed.

(** C7, as the code has it.  The pruning cell checks no alignment: whatever
    the columns of the three frames are, the same or not, each call of
    [remove_features] returns normally and the cell raises nothing. *)
Theorem prune_cell_raises_nothing lst threshold (X_train X_val X_test : loc)
    h d1 d2 d3 :
  h !! X_train = Some d1 → h !! X_val = Some d2 → h !! X_test = Some d3 →
  ∃ h', prune_cell lst threshold X_train X_val X_test h = (Return (), h').
Proof.
  intros H1 H2 H3.
  destruct (prune_cell_run lst threshold X_train X_val X_test h d1 d2 d3 H1 H2 H3)
    as (h' & Hrun & _).
  by exists h'.
Qed.

End pruning_lemmas.

(** C1, on the scenario of the specification.  With the features
    [{a: 0.5, b: 0.01, c: 0.2}] and the threshold [0.01], the loop of
    [remove_features] selects exactly [b], and the frame that [data.drop]
    builds has the columns [a, c] that the docstring promises; but that
    frame is dropped on the floor: after the call the frame [data] still
    has the three columns [a, b, c] and all its cells.  With a threshold
    above every score the loop selects all three columns, and again the
    frame keeps them. *)
Theorem remove_features_scenario_keeps_b :
  features_to_remove (N:=float_number) scores_abc (columns frame_abc) 0.01%float = [b] ∧
  kept_features (N:=float_number) scores_abc (columns frame_abc) 0.01%float = [a; c] ∧
  (∃ df', df_drop [b] frame_abc = Return df' ∧ columns df' = [a; c]) ∧
  (∃ h' : gmap loc (@DataFrame float_number),
     remove_features (N:=float_number) scores_abc 1%positive 0.01%float store_abc
       = (Return (), h') ∧
     h' !! 1%positive = Some frame_abc ∧
     columns frame_abc = [a; b; c]) ∧
  features_to_remove (N:=float_number) scores_abc (columns frame_abc) 1%float
    = [a; b; c] ∧
  ∃ h' : gmap loc (@DataFrame float_number),
     remove_features (N:=float_number) scores_abc 1%positive 1%float store_abc
       = (Return (), h') ∧
     h' !! 1%positive = Some frame_abc.
Proof.
  split_and!; [by vm_compute..| | |by vm_compute|].
  - eexists. split; by vm_compute.
  - eexists. split_and!; by vm_compute.
  - eexists. split; by vm_compute.
Qed.

Lemma df_drop_builds_kept_features_abc :
  (NoDup (columns frame_abc) ∧ length (columns frame_abc) ≤ length scores_abc) ∧
  ∃ df', df_drop (features_to_remove (N:=float_number) scores_abc (columns frame_abc)
                    0.01%float) frame_abc = Return df' ∧
         columns df'
         = kept_features (N:=float_number) scores_abc (columns frame_abc) 0.01%float.
Proof.
  assert (NoDup (columns frame_abc)) as Hnd.
  { compute_done. }
  split; [split; [exact Hnd | simpl; lia]|].
  apply (df_drop_builds_kept_features (N:=float_number) scores_abc frame_abc 0.01%float Hnd).
  simpl; lia.
Defined.

Lemma remove_features_below_every_score_abc :
  (store_abc !! 1%positive = Some frame_abc ∧
   Forall (λ s, PrimFloat.leb s 0.001%float = false) scores_abc) ∧
  features_to_remove (N:=float_number) scores_abc (columns frame_abc) 0.001%float = [] ∧
  remove_features (N:=float_number) scores_abc 1%positive 0.001%float store_abc
    = (Return (), store_abc).
Proof.
  assert (Forall (λ s, PrimFloat.leb s 0.001%float = false) scores_abc) as Hlow.
  { repeat constructor. }
  split; [split; [reflexivity | exact Hlow]|].
  exact (remove_features_below_every_score (N:=float_number) scores_abc 1%positive
           0.001%float store_abc frame_abc eq_refl Hlow).
Defined.

Lemma remove_features_leaves_data_unchanged_abc :
  store_abc !! 1%positive = Some frame_abc ∧
  ∃ h' : gmap loc (@DataFrame float_number),
    remove_features (N:=float_number) scores_abc 1%positive 0.01%float store_abc
      = (Return (), h') ∧
    h' !! 1%positive = Some frame_abc ∧
    ∀ l d, store_abc !! l = Some d → h' !! l = Some d.
Proof.
  split; [reflexivity|].
  apply (remove_features_leaves_data_unchanged (N:=float_number)
           scores_abc 1%positive 0.01%float store_abc frame_abc).
  reflexivity.
Defined.

Lemma prune_cell_removes_same_features_abc :
  (features_to_remove (N:=float_number) scores_abc (columns frame_abc) 0.01%float
     = features_to_remove (N:=float_number) scores_abc (columns frame_abc) 0.01%float ∧
   features_to_remove (N:=float_number) scores_abc (columns frame_abc) 0.01%float
     = features_to_remove (N:=float_number) scores_abc (columns frame_abc) 0.01%float) ∧
  (∃ e1 e2 e3,
     df_drop (features_to_remove (N:=float_number) scores_abc (columns frame_abc)
                0.01%float) frame_abc = Return e1 ∧
     df_drop (features_to_remove (N:=float_number) scores_abc (columns frame_abc)
                0.01%float) frame_abc = Return e2 ∧
     df_drop (features_to_remove (N:=float_number) scores_abc (columns frame_abc)
                0.01%float) frame_abc = Return e3 ∧
     columns e1 = columns e2 ∧ columns e2 = columns e3) ∧
  ∃ (h' : gmap loc (@DataFrame float_number)) d1' d2' d3',
    prune_cell (N:=float_number) scores_abc 0.01%float 1%positive 2%positive 3%positive
      store_aligned = (Return (), h') ∧
    h' !! 1%positive = Some d1' ∧ h' !! 2%positive = Some d2' ∧
    h' !! 3%positive = Some d3' ∧
    columns d1' = columns d2' ∧ columns d2' = columns d3'.
Proof.
  exact (prune_cell_removes_same_features (N:=float_number) scores_abc 0.01%float
           1%positive 2%positive 3%positive store_aligned frame_abc frame_abc frame_abc
           eq_refl eq_refl eq_refl eq_refl eq_refl).
Defined.

(** Frames over [a, b], over [a, c] and over [a, b] again. *)
Lemma prune_cell_raises_nothing_misaligned :
  columns frame_ab ≠ columns frame_ac ∧
  ∃ h' : gmap loc (@DataFrame float_number),
    prune_cell (N:=float_number) [0.5; 0.01]%float 0.01%float
      1%positive 2%positive 3%positive store_misaligned = (Return (), h').
Proof.
  split; [discriminate|].
  apply (prune_cell_raises_nothing (N:=float_number) [0.5; 0.01]%float 0.01%float
           1%positive 2%positive 3%positive store_misaligned frame_ab frame_ac frame_ab);
    reflexivity.
Defined.

(** C7, as stated, fails.  The frames at [1] and [2] have different feature
    names ([a, b] against [a, c]); the pruning cell on them returns normally:
    its outcome is a [Return], not a [Raise]. *)
Lemma prune_cell_misaligned_returns :
  columns frame_ab ≠ columns frame_ac ∧
  (prune_cell (N:=float_number) [0.5; 0.01]%float 0.01%float
     1%positive 2%positive 3%positive store_misaligned).1 = Return ().
Proof. split; [discriminate | by vm_compute]. Qed.

(** *** The threshold at the ends *)

Section pruning_edges.
Context {N : Number}.
Implicit Types (h : gmap loc DataFrame) (df : DataFrame) (lst : list num).

(** The labels that the loop collects: those of the positions whose score is
    at most the threshold. *)
Lemma features_to_remove_elem_of lst (cols : list label) threshold c :
  c ∈ features_to_remove lst cols threshold ↔
  ∃ i s, cols !! i = Some c ∧ lst !! i = Some s ∧ num_le s threshold = true.
Proof.
  rewrite features_to_remove_filter, list_elem_of_fmap. split.
  - intros ([c' s] & -> & Hin). apply list_elem_of_filter in Hin as [Hle Hin].
    apply list_elem_of_lookup in Hin as [i Hi].
    rewrite lookup_zip_with in Hi.
    destruct (cols !! i) as [c''|] eqn:Hc; [|done].
    destruct (lst !! i) as [s'|] eqn:Hs; [|done].
    simpl in Hi. injection Hi as -> ->. by exists i, s.
  - intros (i & s & Hc & Hs & Hle). exists (c, s). split; [done|].
    apply list_elem_of_filter. split; [done|].
    apply list_elem_of_lookup. exists i. rewrite lookup_zip_with. by rewrite Hc, Hs.
Qed.

Lemma features_to_remove_all lst (cols : list label) threshold :
  Forall (λ s, num_le s threshold = true) lst → length cols ≤ length lst →
  features_to_remove lst cols threshold = cols.
Proof.
  rewrite features_to_remove_filter. revert cols.
  induction lst as [|s lst IH]; intros cols Hall Hlen.
  - destruct cols; [done|simpl in Hlen; lia].
  - destruct cols as [|c cols]; [done|]. inversion Hall as [|? ? Hs Hall']; subst.
    simpl. rewrite filter_cons_True by done. simpl. f_equal.
    apply IH; [done|simpl in Hlen; lia].
Qed.

Lemma keep_cells_all_false {A} (mask : list bool) (row : list A) :
  Forall (λ b, b = false) mask → keep_cells mask row = [].
Proof.
  intros Hm. revert row. induction Hm as [|b mask -> _ IH]; intros row; [done|].
  destruct row; [done|]. simpl. apply IH.
Qed.

(** With a threshold at or above every score, and a score for every column,
    [remove_features] selects every column; [drop] is handed them all and
    builds a frame that still has every row, with no cell in it; and the
    frame behind [data] keeps all its columns. *)
Theorem remove_features_above_every_score lst data threshold h df :
  h !! data = Some df →
  Forall (λ s, num_le s threshold = true) lst →
  length (columns df) ≤ length lst →
  features_to_remove lst (columns df) threshold = columns df ∧
  df_drop (features_to_remove lst (columns df) threshold) df
    = Return {| columns := []; rows := (λ r, (r.1, [])) <$> rows df |} ∧
  ∃ h', remove_features lst data threshold h = (Return (), h') ∧
        h' !! data = Some df.
Proof.
  intros Hdata Hall Hlen.
  rewrite (features_to_remove_all lst (columns df) threshold Hall Hlen).
  split; [done|]. split.
  - unfold df_drop.
    assert (forallb (λ l, bool_decide (l ∈ columns df)) (columns df) = true) as ->.
    { apply forallb_forall. intros l Hl. apply bool_decide_eq_true.
      by apply list_elem_of_In. }
    assert (Forall (λ b, b = false) ((λ c, bool_decide (c ∉ columns df)) <$> columns df))
      as Hmask.
    { apply Forall_fmap, Forall_forall. intros l Hl. simpl.
      apply bool_decide_eq_false. by intros Hn. }
    f_equal. f_equal; [by apply keep_cells_all_false|].
    apply list_fmap_ext. intros i r _. simpl. f_equal. by apply keep_cells_all_false.
  - destruct (remove_features_preserves lst data threshold h df Hdata) as (h' & Hrun & F).
    exists h'. split; [done|]. by apply F.
Qed.

End pruning_edges.

(** *** Scores that are not numbers *)

(** A float that differs from itself is the NaN. *)
Lemma SFeqb_refl_not_nan (x : SpecFloat.spec_float) :
  SpecFloat.SFeqb x x = false → x = SpecFloat.S754_nan.
Proof.
  destruct x as [s|s| |s m e].
  - by destruct s.
  - by destruct s.
  - done.
  - unfold SpecFloat.SFeqb, SpecFloat.SFcompare.
    rewrite Z.compare_refl, Pos.compare_cont_refl.
    destruct s; simpl; done.
Qed.

(** [<=] is false as soon as one side is a NaN. *)
Lemma leb_nan (s t : float) :
  PrimFloat.is_nan s = true ∨ PrimFloat.is_nan t = true → PrimFloat.leb s t = false.
Proof.
  unfold PrimFloat.is_nan. rewrite !FloatAxioms.eqb_spec, FloatAxioms.leb_spec.
  intros [H|H]; apply negb_true_iff, SFeqb_refl_not_nan in H; rewrite H.
  - done.
  - by destruct (Prim2SF s) as [[]|[]| |[] ? ?].
Qed.

(** With floating-point scores, [pair[1] <= threshold] is false when the
    score is a NaN, and when the threshold is: a feature whose score is a
    NaN is never selected for removal, whatever the threshold, and a NaN
    threshold selects no feature.  (The column names are distinct, so that
    no other column selects the name.) *)
Theorem nan_score_is_never_selected (lst : list float) (cols : list label)
    (threshold : float) i c s :
  NoDup cols → cols !! i = Some c → lst !! i = Some s →
  PrimFloat.is_nan s = true ∨ PrimFloat.is_nan threshold = true →
  c ∉ features_to_remove (N:=float_number) lst cols threshold.
Proof.
  intros Hnd Hc Hs Hnan Hin.
  apply (features_to_remove_elem_of (N:=float_number)) in Hin
    as (j & s' & Hc' & Hs' & Hle).
  assert (j = i) as -> by by eapply NoDup_lookup.
  pose proof (eq_trans (eq_sym Hs) Hs') as [= <-].
  simpl in Hle. by rewrite leb_nan in Hle.
Qed.

(** With the threshold 1, above the three scores of the scenario, every
    column is selected, the frame that [drop] builds has no column left,
    and the frame in the store has its three. *)
Lemma remove_features_above_every_score_abc :
  (store_abc !! 1%positive = Some frame_abc ∧
   Forall (λ s, PrimFloat.leb s 1%float = true) scores_abc ∧
   length (columns frame_abc) ≤ length scores_abc) ∧
  features_to_remove (N:=float_number) scores_abc (columns frame_abc) 1%float
    = columns frame_abc ∧
  df_drop (features_to_remove (N:=float_number) scores_abc (columns frame_abc) 1%float)
    frame_abc
    = Return (@Build_DataFrame float_number [] [(0, []); (1, [])]) ∧
  ∃ h' : gmap loc (@DataFrame float_number),
    remove_features (N:=float_number) scores_abc 1%positive 1%float store_abc
      = (Return (), h') ∧
    h' !! 1%positive = Some frame_abc.
Proof.
  assert (store_abc !! 1%positive = Some frame_abc) as H1 by reflexivity.
  assert (Forall (λ s, PrimFloat.leb s 1%float = true) scores_abc) as H2
    by (repeat constructor).
  assert (length (columns frame_abc) ≤ length scores_abc) as H3 by (simpl; lia).
  split; [by split_and!|].
  exact (remove_features_above_every_score (N:=float_number) scores_abc 1%positive
           1%float store_abc frame_abc H1 H2 H3).
Defined.

(** The score of [b] is a NaN: [b] is not selected, though the threshold 1
    selects [a] and [c]. *)
Lemma nan_score_is_never_selected_abc :
  features_to_remove (N:=float_number) [0.5; nan; 0.2]%float [a; b; c] 1%float = [a; c] ∧
  b ∉ features_to_remove (N:=float_number) [0.5; nan; 0.2]%float [a; b; c] 1%float.
Proof.
  split; [by vm_compute|].
  apply (nan_score_is_never_selected [0.5; nan; 0.2]%float [a; b; c] 1%float 1 b nan).
  - compute_done.
  - reflexivity.
  - reflexivity.
  - left. reflexivity.
Defined.

(** ** Serialising *)

Lemma mentions_app c s t : mentions c (s +:+ t) = mentions c s || mentions c t.
Proof. induction s as [|c' s IH]; simpl; [done|]. by rewrite IH, orb_assoc. Qed.

Lemma split_on_plain sep field :
  mentions sep field = false → split_on sep field = [field].
Proof.
  induction field as [|c field IH]; simpl; [done|].
  intros [Hc Hf]%orb_false_iff. by rewrite Hc, IH.
Qed.

Lemma split_on_sep sep field rest :
  mentions sep field = false →
  split_on sep (field +:+ String sep rest) = field :: split_on sep rest.
Proof.
  induction field as [|c field IH]; simpl.
  - by rewrite Ascii.eqb_refl.
  - intros [Hc Hf]%orb_false_iff. by rewrite Hc, IH.
Qed.

(** Cutting a joined line gives back its fields, when no field mentions the
    separator. *)
Lemma split_on_join sep fields :
  fields ≠ [] → Forall (λ field, mentions sep field = false) fields →
  split_on sep (join (String sep "") fields) = fields.
Proof.
  induction fields as [|field fields IH]; [done|]. intros _ Hplain.
  inversion Hplain as [|? ? Hfield Hfields]; subst.
  destruct fields as [|field' fields].
  - by apply split_on_plain.
  - change (join (String sep "") (field :: field' :: fields))
      with (field +:+ String sep (join (String sep "") (field' :: fields))).
    by rewrite split_on_sep, IH.
Qed.

Lemma mentions_join c sep fields :
  Ascii.eqb sep c = false → Forall (λ field, mentions c field = false) fields →
  mentions c (join (String sep "") fields) = false.
Proof.
  intros Hsep. induction 1 as [|field fields Hfield Hfields IH]; [done|].
  destruct fields as [|field' fields]; [done|].
  change (join (String sep "") (field :: field' :: fields))
    with (field +:+ String sep (join (String sep "") (field' :: fields))).
  rewrite mentions_app. cbn [mentions]. by rewrite Hfield, Hsep, IH.
Qed.

Lemma splitlines_line line rest :
  mentions newline line = false →
  splitlines (line +:+ String newline rest) = line :: splitlines rest.
Proof.
  induction line as [|c line IH]; simpl; [done|].
  intros [Hc Hl]%orb_false_iff. by rewrite Hc, IH.
Qed.

Section serialising_lemmas.
Context {N : Number} {G : Generator} {GL : GeneratorLaws G}.
Variable format_num : num → string.
Variable parse_num : string → option num.
(** A written number reads back as itself, and its text has no comma and no
    line end (so pandas does not quote it). *)
Hypothesis parse_format : ∀ v, parse_num (format_num v) = Some v.
Hypothesis format_plain : ∀ v,
  mentions comma (format_num v) = false ∧ mentions newline (format_num v) = false.

Lemma csv_line_plain cells : mentions newline (csv_line format_num cells) = false.
Proof.
  apply mentions_join; [done|]. apply Forall_fmap, Forall_forall.
  intros v _. apply format_plain.
Qed.

(** The file has one line for each row: the cells of the row. *)
Lemma splitlines_to_csv df :
  splitlines (to_csv format_num df) = (λ r, csv_line format_num r.2) <$> rows df.
Proof.
  unfold to_csv. induction (rows df) as [|r rs IH]; simpl; [done|].
  by rewrite splitlines_line, IH by apply csv_line_plain.
Qed.

Lemma read_csv_line cells :
  cells ≠ [] →
  mapM parse_num (split_on comma (csv_line format_num cells)) = Some cells.
Proof.
  intros Hne. unfold csv_line. rewrite split_on_join.
  - apply mapM_fmap_Some, parse_format.
  - by destruct cells.
  - apply Forall_fmap, Forall_forall. intros v _. apply format_plain.
Qed.

Lemma read_to_csv df parsed :
  Forall2 (λ r (p : num * list num), r.2 = p.1 :: p.2) (rows df) parsed →
  read_label_first parse_num (to_csv format_num df) = Some parsed.
Proof.
  intros Hrows. unfold read_label_first. rewrite splitlines_to_csv.
  apply mapM_Some, Forall2_fmap_l. eapply Forall2_impl; [exact Hrows|].
  intros r [label features] Hr. simpl in *.
  rewrite read_csv_line by by rewrite Hr. by rewrite Hr.
Qed.

(** The rows of the label frame beside the rows of the feature frame. *)
Lemma label_first_rows (ys xs : list (nat * list num)) :
  length ys = length xs → Forall (λ y, length y.2 = 1) ys →
  (λ r : nat * list num, csv_line format_num r.2)
    <$> zip_with (λ y x, (y.1, y.2 ++ x.2)) ys xs
  = zip_with (λ y x, csv_line format_num (y.2 ++ x.2)) ys xs ∧
  ∃ parsed : list (num * list num),
    Forall2 (λ r p, r.2 = p.1 :: p.2)
      (zip_with (λ y x, (y.1, y.2 ++ x.2)) ys xs) parsed ∧
    (λ p, [p.1]) <$> parsed = ys.*2 ∧ parsed.*2 = xs.*2.
Proof.
  intros Hlen Hys. revert xs Hlen.
  induction Hys as [|[i cells] ys Hy Hys IH]; intros [|[j x] xs] Hlen;
    simpl in Hlen; try lia.
  - split; [done|]. exists []. by split_and!.
  - destruct (IH xs ltac:(lia)) as (Hlines & parsed & Hparsed & HY & HX).
    simpl in Hy. destruct cells as [|label [|? ?]]; simpl in Hy; try lia.
    split; [simpl; f_equal; exact Hlines|].
    exists ((label, x) :: parsed). split_and!.
    + by constructor.
    + simpl. f_equal. exact HY.
    + simpl. f_equal. exact HX.
Qed.

Lemma concat_to_csv_label_first Y X :
  index Y = index X → Forall (λ y, length y.2 = 1) (rows Y) →
  ∃ df, concat_axis1 Y X = Some df ∧
        written_label_first format_num parse_num Y X (to_csv format_num df).
Proof.
  intros Hindex HY. unfold concat_axis1. rewrite decide_True by done.
  eexists. split; [reflexivity|].
  assert (length (rows Y) = length (rows X)) as Hlen.
  { unfold index in Hindex. by rewrite <- (length_fmap fst (rows Y)), Hindex, length_fmap. }
  destruct (label_first_rows (rows Y) (rows X) Hlen HY)
    as (Hlines & parsed & Hparsed & HpY & HpX).
  unfold written_label_first. rewrite splitlines_to_csv. simpl.
  split_and!.
  - done.
  - rewrite length_fmap, length_zip_with. lia.
  - exists parsed. split_and!; [|done..]. by apply read_to_csv.
Qed.

(** C8.  For training and validation frames whose label frame has the index
    of the feature frame and one column, the cell writes two texts, each
    with one line for each row and no header line, each line the label and
    then the features in column order joined by commas; read back label
    first, each text gives the labels and the features of its frames.
    Numbers are written so that they read back as themselves and their text
    has no comma and no line end. *)
Theorem csv_label_first_round_trip X_train Y_train X_val Y_val :
  index Y_train = index X_train → index Y_val = index X_val →
  Forall (λ y, length y.2 = 1) (rows Y_train) →
  Forall (λ y, length y.2 = 1) (rows Y_val) →
  ∃ train_csv validation_csv,
    write_csv_cell format_num X_train Y_train X_val Y_val
      = Some (train_csv, validation_csv) ∧
    written_label_first format_num parse_num Y_train X_train train_csv ∧
    written_label_first format_num parse_num Y_val X_val validation_csv.
Proof.
  intros Ht Hv HYt HYv. unfold write_csv_cell.
  destruct (concat_to_csv_label_first Y_train X_train Ht HYt) as (train & -> & Htrain).
  destruct (concat_to_csv_label_first Y_val X_val Hv HYv) as (val & -> & Hval).
  by eexists _, _.
Qed.

(** The frames that the split cell returns for a dataset whose labels are
    one column with the index of the features are frames that the
    serialising cell writes label first: the hypotheses of the round trip
    hold of every outcome of the split. *)
Theorem split_outputs_written_label_first test_size validation_size
    (X Y : DataFrame) (g : RandomState)
    X_train X_val X_test Y_train Y_val Y_test g' :
  index X = index Y → Forall (λ y, length y.2 = 1) (rows Y) →
  split_cell test_size validation_size X Y g
    = (Return (X_train, X_val, X_test, Y_train, Y_val, Y_test), g') →
  ∃ train_csv validation_csv,
    write_csv_cell format_num X_train Y_train X_val Y_val
      = Some (train_csv, validation_csv) ∧
    written_label_first format_num parse_num Y_train X_train train_csv ∧
    written_label_first format_num parse_num Y_val X_val validation_csv.
Proof.
  intros Hindex HY Hsplit.
  destruct (split_cell_index _ _ _ _ _ _ _ _ _ _ _ _ Hindex Hsplit) as (Htr & Hval & _).
  destruct (split_cell_cases test_size validation_size X Y g)
    as [(_ & ? & ? & ? & ? & ? & ? & ? & Hrun & _ & HpY) | (_ & ? & Hrun)];
    rewrite Hsplit in Hrun; [|done].
  injection Hrun as <- <- <- <- <- <- <-.
  rewrite <- HpY in HY. apply Forall_app in HY as [HYtr HY].
  apply Forall_app in HY as [HYval _]. unfold write_csv_cell.
  destruct (concat_to_csv_label_first Y_train X_train Htr HYtr) as (train & -> & Htrain).
  destruct (concat_to_csv_label_first Y_val X_val Hval HYval) as (val & -> & Hvalid).
  by eexists _, _.
Qed.

End serialising_lemmas.

(** ** The cells in sequence *)

Section notebook_lemmas.
Context {N : Number} {G : Generator} {L : Learners}.
Variable format_num : num → string.

(** A new frame gets a reference of its own: the frame is behind it, and
    every frame that was in the store is still behind its reference. *)
Lemma alloc_lookup (df : DataFrame) (h : gmap loc DataFrame) :
  ∃ l h', alloc df h = (Return l, h') ∧ h' !! l = Some df ∧
          ∀ l' d, h !! l' = Some d → h' !! l' = Some d.
Proof.
  unfold alloc. eexists _, _. split; [reflexivity|]. split.
  - apply lookup_insert_eq.
  - intros l' d Hl'. rewrite lookup_insert_ne; [done|].
    intros <-. pose proof (is_fresh (dom h)) as Hf.
    apply Hf. apply elem_of_dom. eauto.
Qed.

(** The files that a run of the cells writes are the files of the frames as
    the split cell returned them: whatever the threshold, whatever the
    scores, and whatever the store held before, [train.csv] and
    [validation.csv] are built from the unpruned training and validation
    frames. *)
Theorem notebook_files_ignore_threshold X Y threshold g h
    X_train X_val X_test Y_train Y_val Y_test g' :
  notebook_split_cell X Y g
    = (Return (X_train, X_val, X_test, Y_train, Y_val, Y_test), g') →
  (notebook_cells format_num X Y threshold (g, h)).1
  = Return (write_csv_cell format_num X_train Y_train X_val Y_val).
Proof.
  intros Hsplit. unfold notebook_cells, mbind, state_bind, on_rng, on_heap.
  cbn [fst snd]. rewrite Hsplit. cbn [fst snd].
  destruct (alloc_lookup X_train h) as (l1 & h1 & -> & H11 & F1). cbn [fst snd].
  destruct (alloc_lookup X_val h1) as (l2 & h2 & -> & H22 & F2). cbn [fst snd].
  destruct (alloc_lookup X_test h2) as (l3 & h3 & -> & H33 & F3). cbn [fst snd].
  pose proof (F3 _ _ (F2 _ _ H11)) as H31. pose proof (F3 _ _ H22) as H32.
  unfold deref at 1. rewrite H31. cbn [fst snd].
  destruct (prune_cell_run (feature_importances_xgboost_cell X_train) threshold
              l1 l2 l3 h3 _ _ _ H31 H32 H33) as (h4 & -> & F4). cbn [fst snd].
  unfold deref. rewrite (F4 _ _ H31). cbn [fst snd]. rewrite (F4 _ _ H32). done.
Qed.

End notebook_lemmas.

(** ** The cells around the pipeline *)

(** [get_sagemaker_version] returns the integer [-1] exactly when no
    distribution of the working set has the key [sagemaker]; otherwise it
    returns the string [sagemaker==] followed by the version of the first
    distribution that has it. *)
Theorem get_sagemaker_version_first_installed (working_set : list Distribution) :
  (get_sagemaker_version working_set = Int (-1) ↔
   ∀ i, i ∈ working_set → key i ≠ "sagemaker") ∧
  (∀ before i after,
     working_set = before ++ i :: after →
     (∀ j, j ∈ before → key j ≠ "sagemaker") →
     key i = "sagemaker" →
     get_sagemaker_version working_set = Str ("sagemaker==" +:+ version i)).
Proof.
  split.
  - induction working_set as [|i ws IH]; simpl.
    + split; [|done]. intros _ i Hi. by apply elem_of_nil in Hi.
    + destruct (String.eqb (key i) "sagemaker") eqn:E.
      * split; [done|]. intros Hall. apply String.eqb_eq in E.
        exfalso. apply (Hall i); [left|done].
      * apply String.eqb_neq in E. rewrite IH. split.
        -- intros Hall j Hj. apply elem_of_cons in Hj as [->|Hj]; [done|by apply Hall].
        -- intros Hall j Hj. apply Hall. by right.
  - intros before i after -> Hbefore Hi.
    induction before as [|j before IH]; simpl.
    + rewrite Hi. done.
    + destruct (String.eqb (key j) "sagemaker") eqn:E.
      * apply String.eqb_eq in E. exfalso. apply (Hbefore j); [left|done].
      * apply IH. intros j' Hj'. apply Hbefore. by right.
Qed.

(** The assertion of the selection cell passes for the names [diabetes] and
    [california] and for no other; a name that passed is a key of
    [data_sets], so the lookup of the next cell raises no [KeyError] and
    hands one of the two loader calls to [eval]; a name that failed the
    assertion would raise [KeyError] there. *)
Theorem chosen_data_set_is_loadable (choosen_data_set : string) :
  (choose_data_set_cell choosen_data_set = Passed ↔
   choosen_data_set = "diabetes" ∨ choosen_data_set = "california") ∧
  (choose_data_set_cell choosen_data_set = Passed →
   data_set_expression choosen_data_set = Return "load_diabetes()" ∨
   data_set_expression choosen_data_set = Return "fetch_california_housing()") ∧
  (choose_data_set_cell choosen_data_set = AssertionError →
   data_set_expression choosen_data_set = Raise KeyError).
Proof.
  unfold choose_data_set_cell, py_assert, data_set_expression, data_sets.
  destruct (decide (choosen_data_set = "diabetes")) as [->|Hd];
    [split_and!; [split; [by left|by vm_compute]| by left | by vm_compute]|].
  destruct (decide (choosen_data_set = "california")) as [->|Hc];
    [split_and!; [split; [by right|by vm_compute]| by right | by vm_compute]|].
  rewrite bool_decide_eq_false_2.
  2:{ rewrite dom_insert, dom_singleton, elem_of_union, !elem_of_singleton. tauto. }
  rewrite lookup_insert_ne by done. rewrite lookup_singleton_ne by done.
  split_and!; [split; [done|tauto]|done..].
Qed.

(** *** The frames *)

Section loading_lemmas.
Context {N : Number}.

(** Numbering the items of a list: the numbers, and the items. *)
Lemma imap_index {A B} (f : A → B) (l : list A) :
  (imap (λ i x, (i, f x)) l).*1 = seq 0 (length l).
Proof.
  apply list_eq. intros i. rewrite list_lookup_fmap, list_lookup_imap.
  destruct (l !! i) as [x|] eqn:E; simpl.
  - symmetry. apply lookup_seq. split; [done|]. by eapply lookup_lt_Some.
  - symmetry. apply lookup_ge_None_2. rewrite length_seq.
    by apply lookup_ge_None_1.
Qed.

Lemma imap_values {A B} (f : A → B) (l : list A) :
  (imap (λ i x, (i, f x)) l).*2 = f <$> l.
Proof.
  apply list_eq. intros i. rewrite !list_lookup_fmap, list_lookup_imap.
  by destruct (l !! i).
Qed.

End loading_lemmas.

(** ** The notebook from the dataset to the training job *)

(** Rows of one cell each are the rows of a list of cells. *)
Lemma single_cells {A} (ys : list (nat * list A)) :
  Forall (λ y, length y.2 = 1) ys → ∃ ts, ys.*2 = (λ t, [t]) <$> ts.
Proof.
  induction 1 as [|[i cells] ys Hy _ (ts & IH)]; [by exists []|].
  destruct cells as [|t [|? ?]]; try done. exists (t :: ts). csimpl. by rewrite IH.
Qed.

Lemma Permutation_fmap_inj {A B} (f : A → B) (l k : list A) :
  Inj (=) (=) f → f <$> l ≡ₚ f <$> k → l ≡ₚ k.
Proof.
  intros Hf HP. symmetry in HP.
  apply Permutation_map_inv in HP as (l' & Heq & HP).
  apply (inj (fmap f)) in Heq. by subst.
Qed.

(** What was read label first, against the labels and the features. *)
Lemma labelled_rows {A} (parsed : list (A * list A)) (ys xs : list (list A)) :
  (λ p, [p.1]) <$> parsed = ys → parsed.*2 = xs →
  prod_map (λ y : A, [y]) id <$> parsed = zip ys xs.
Proof.
  intros <- <-. induction parsed as [|[y x] parsed IH]; [done|].
  csimpl. by rewrite IH.
Qed.

Lemma zip_values {A} (xs ys : list (nat * list A)) :
  zip ys.*2 xs.*2 = (λ p : (nat * list A) * (nat * list A), (p.2.2, p.1.2)) <$> zip xs ys.
Proof.
  revert ys. induction xs as [|x xs IH]; intros [|y ys]; csimpl; try done.
  by rewrite IH.
Qed.

Section notebook_run_lemmas.
Context {N : Number} {G : Generator} {GL : GeneratorLaws G}.
Context {L : Learners} {LL : LearnersLaws L}.
Variable format_num : num → string.
Variable parse_num : string → option num.
Hypothesis parse_format : ∀ v, parse_num (format_num v) = Some v.
Hypothesis format_plain : ∀ v,
  mentions comma (format_num v) = false ∧ mentions newline (format_num v) = false.

(** The training split of the notebook has at least five rows exactly when
    the dataset has at least twelve. *)
Lemma train_rows_33 (n : nat) :
  let n_test := (33 * n + 99) `div` 100 in
  let n_val := (33 * (n - n_test) + 99) `div` 100 in
  (12 ≤ n → 5 ≤ n - n_test - n_val) ∧ (n < 12 → n - n_test - n_val < 5).
Proof.
  cbv zeta.
  pose proof (Nat.div_mod_eq (33 * n + 99) 100) as E1.
  pose proof (Nat.mod_upper_bound (33 * n + 99) 100 ltac:(lia)) as B1.
  set (t := (33 * n + 99) `div` 100) in *.
  pose proof (Nat.div_mod_eq (33 * (n - t) + 99) 100) as E2.
  pose proof (Nat.mod_upper_bound (33 * (n - t) + 99) 100 ltac:(lia)) as B2.
  set (v := (33 * (n - t) + 99) `div` 100) in *.
  split; lia.
Qed.

(** The load cell binds [X] and [Y], or raises [ValueError]. *)
Lemma load_cell_run_cases data_set g h :
  (length (feature_names data_set) = n_columns (data data_set) ∧
   ∃ X Y h',
     load_cell_run data_set (g, h) = (Return (X, Y), (g, h')) ∧
     h' !! X = Some {| columns := Name <$> feature_names data_set;
                       rows := imap pair (array_rows (data data_set)) |} ∧
     h' !! Y = Some (DataFrame_of_vector (target data_set)))
  ∨ (length (feature_names data_set) ≠ n_columns (data data_set) ∧
     load_cell_run data_set (g, h) = (Raise ValueError, (g, h))).
Proof.
  unfold load_cell_run, load_cell, DataFrame_of_array, mbind, state_bind, lift, on_heap.
  rewrite length_fmap. case_bool_decide as Hnames; [left|right; by split].
  split; [done|]. cbn [fst snd].
  destruct (alloc_lookup {| columns := Name <$> feature_names data_set;
                            rows := imap pair (array_rows (data data_set)) |} h)
    as (l1 & h1 & -> & H1 & F1). cbn [fst snd].
  destruct (alloc_lookup (DataFrame_of_vector (target data_set)) h1)
    as (l2 & h2 & -> & H2 & F2). cbn [fst snd].
  exists l1, l2, h2. split_and!; [done| |done]. by apply F2.
Qed.

(** The split cell binds the six frames that [split_cell] returns, or raises
    [ValueError] as [split_cell] does. *)
Lemma split_cell_run_cases (X Y : loc) (X_ Y_ : DataFrame) g h :
  h !! X = Some X_ → h !! Y = Some Y_ →
  (∃ X_train_ X_val_ X_test_ Y_train_ Y_val_ Y_test_ g' h'
     X_train X_val X_test Y_train Y_val Y_test,
     split_cell (33 # 100) (33 # 100) X_ Y_ g
       = (Return (X_train_, X_val_, X_test_, Y_train_, Y_val_, Y_test_), g') ∧
     split_cell_run X Y (g, h)
       = (Return (X_train, X_val, X_test, Y_train, Y_val, Y_test), (g', h')) ∧
     h' !! X_train = Some X_train_ ∧ h' !! X_val = Some X_val_ ∧
     h' !! X_test = Some X_test_ ∧ h' !! Y_train = Some Y_train_ ∧
     h' !! Y_val = Some Y_val_)
  ∨ ((∃ g', split_cell (33 # 100) (33 # 100) X_ Y_ g = (Raise ValueError, g')) ∧
     ∃ w', split_cell_run X Y (g, h) = (Raise ValueError, w')).
Proof.
  intros HX HY.
  destruct (train_test_split_cases (33 # 100) X_ Y_ g)
    as [(_ & A & B & C & D & g1 & R1 & _)|(_ & R1)].
  2:{ right. split.
      - exists g. unfold split_cell, mbind, state_bind. by rewrite R1.
      - exists (g, h).
        unfold split_cell_run, mbind, state_bind, on_heap, on_rng, deref.
        cbn [fst snd]. rewrite HX. cbn [fst snd]. rewrite HY. cbn [fst snd].
        by rewrite R1. }
  destruct (alloc_lookup A h) as (l1 & h1 & E1 & H1 & F1).
  destruct (alloc_lookup B h1) as (l2 & h2 & E2 & H2 & F2).
  destruct (alloc_lookup C h2) as (l3 & h3 & E3 & H3 & F3).
  destruct (alloc_lookup D h3) as (l4 & h4 & E4 & H4 & F4).
  pose proof (F4 _ _ (F3 _ _ (F2 _ _ H1))) as H1'. pose proof (F4 _ _ H3) as H3'.
  assert (∀ B0 (k : _ → state (RandomState * gmap loc DataFrame) B0),
            (X_ ← on_heap (deref X); Y_ ← on_heap (deref Y);
             '(X_train_, X_test_, Y_train_, Y_test_) ←
               on_rng (train_test_split X_ Y_ (33 # 100));
             X_train ← on_heap (alloc X_train_);
             X_test ← on_heap (alloc X_test_);
             Y_train ← on_heap (alloc Y_train_);
             Y_test ← on_heap (alloc Y_test_);
             X_ ← on_heap (deref X_train);
             Y_ ← on_heap (deref Y_train);
             k (X_, Y_, X_test, Y_test)) (g, h)
            = k (A, C, l2, l4) (g1, h4)) as Hfirst.
  { intros B0 k. unfold mbind, state_bind, on_heap, on_rng, deref.
    cbn [fst snd]. rewrite HX. cbn [fst snd]. rewrite HY. cbn [fst snd].
    rewrite R1. cbn [fst snd]. rewrite E1. cbn [fst snd]. rewrite E2. cbn [fst snd].
    rewrite E3. cbn [fst snd]. rewrite E4. cbn [fst snd]. rewrite H1'. cbn [fst snd].
    by rewrite H3'. }
  destruct (train_test_split_cases (33 # 100) A C g1)
    as [(_ & A' & B' & C' & D' & g2 & R2 & _)|(_ & R2)].
  2:{ right. split.
      - exists g1. unfold split_cell, mbind, state_bind. by rewrite R1, R2.
      - exists (g1, h4). unfold split_cell_run.
        rewrite (Hfirst _ (λ '(X_, Y_, X_test, Y_test),
          '(X_train_, X_val_, Y_train_, Y_val_) ←
            on_rng (train_test_split X_ Y_ (33 # 100));
          X_train ← on_heap (alloc X_train_);
          X_val ← on_heap (alloc X_val_);
          Y_train ← on_heap (alloc Y_train_);
          Y_val ← on_heap (alloc Y_val_);
          mret (X_train, X_val, X_test, Y_train, Y_val, Y_test))).
        unfold mbind, state_bind, on_rng. cbn [fst snd]. by rewrite R2. }
  destruct (alloc_lookup A' h4) as (l5 & h5 & E5 & H5 & F5).
  destruct (alloc_lookup B' h5) as (l6 & h6 & E6 & H6 & F6).
  destruct (alloc_lookup C' h6) as (l7 & h7 & E7 & H7 & F7).
  destruct (alloc_lookup D' h7) as (l8 & h8 & E8 & H8 & F8).
  left. exists A', B', B, C', D', D, g2, h8, l5, l6, l2, l7, l8, l4.
  split_and!.
  - unfold split_cell, mbind, state_bind. by rewrite R1, R2.
  - unfold split_cell_run.
    rewrite (Hfirst _ (λ '(X_, Y_, X_test, Y_test),
      '(X_train_, X_val_, Y_train_, Y_val_) ←
        on_rng (train_test_split X_ Y_ (33 # 100));
      X_train ← on_heap (alloc X_train_);
      X_val ← on_heap (alloc X_val_);
      Y_train ← on_heap (alloc Y_train_);
      Y_val ← on_heap (alloc Y_val_);
      mret (X_train, X_val, X_test, Y_train, Y_val, Y_test))).
    unfold mbind, state_bind, on_rng, on_heap. cbn [fst snd]. rewrite R2.
    cbn [fst snd]. rewrite E5. cbn [fst snd]. rewrite E6. cbn [fst snd].
    rewrite E7. cbn [fst snd]. by rewrite E8.
  - by apply F8, F7, F6.
  - by apply F8, F7.
  - by apply F8, F7, F6, F5, F4, F3.
  - by apply F8.
  - done.
Qed.

(** The scoring cells on a training split that is not empty: they run
    through when it has at least five rows, and the permutation cell raises
    [ValueError] when it has fewer.  The store is not touched. *)
Lemma scoring_cells_run_cases (X_train : loc) (train : DataFrame) g h :
  h !! X_train = Some train → 0 < length (rows train) →
  (5 ≤ length (rows train) →
   ∃ g', scoring_cells_run X_train (g, h)
         = (Return (feature_importances_xgboost_cell train), (g', h))) ∧
  (length (rows train) < 5 →
   ∃ g', scoring_cells_run X_train (g, h) = (Raise ValueError, (g', h))).
Proof.
  intros Htrain Hrows.
  unfold scoring_cells_run, mbind, state_bind, on_heap, on_rng, lift.
  cbn [fst snd]. unfold deref. rewrite Htrain. cbn [fst snd].
  pose proof (make_regression_of_shape train) as (Hn & Hm).
  assert (print_scores (feature_importances_xgboost_cell train) train
          = Return (zip (columns train) (feature_importances_xgboost_cell train)))
    as ->.
  { unfold print_scores, feature_importances_xgboost_cell.
    destruct (make_regression _ _ _ _) as [X_data y_label]. simpl in *.
    assert (X_data ≠ []) as Hne by (intros ->; simpl in Hn; lia).
    rewrite print_scores_all; [done|].
    by rewrite (xgb_feature_importances_length X_data y_label _ Hne Hm). }
  cbn [fst snd]. rewrite Htrain. cbn [fst snd].
  unfold feature_importances_permutations_cell.
  destruct (make_regression _ _ _ _) as [X_data y_label]. simpl in Hn, Hm.
  split.
  - intros Hfive.
    destruct (permutation_importance_returns X_data y_label _
                "neg_mean_squared_error" g ltac:(lia) Hm) as (imp & g' & -> & Himp).
    cbn [fst snd]. unfold print_scores. rewrite print_scores_all by lia.
    by exists g'.
  - intros Hfew.
    destruct (permutation_importance_few_samples X_data y_label
                "neg_mean_squared_error" g ltac:(lia)) as (g' & ->).
    by exists g'.
Qed.

(** The serialising cell and the hyperparameter cell read the frames behind
    the names. *)
Lemma training_cells_run_returns model_selected (X_train X_val Y_train Y_val : loc)
    (train validation labels validation_labels : DataFrame) g h :
  h !! X_train = Some train → h !! X_val = Some validation →
  h !! Y_train = Some labels → h !! Y_val = Some validation_labels →
  training_cells_run format_num model_selected X_train X_val Y_train Y_val (g, h)
  = (Return (write_csv_cell format_num train labels validation validation_labels,
             set_hyperparameters_cell model_selected train ∅), (g, h)).
Proof.
  intros H1 H2 H3 H4.
  unfold training_cells_run, mbind, state_bind, on_heap, deref. cbn [fst snd].
  rewrite H1. cbn [fst snd]. rewrite H3. cbn [fst snd]. rewrite H2. cbn [fst snd].
  rewrite H4. cbn [fst snd]. by rewrite H1.
Qed.

(** The frames of the split of a loaded dataset. *)
Lemma loaded_split_sizes data_set g
    X_train X_val X_test Y_train Y_val Y_test g' :
  length (array_rows (data data_set)) = length (target data_set) →
  split_cell (33 # 100) (33 # 100)
    {| columns := Name <$> feature_names data_set;
       rows := imap pair (array_rows (data data_set)) |}
    (DataFrame_of_vector (target data_set)) g
  = (Return (X_train, X_val, X_test, Y_train, Y_val, Y_test), g') →
  0 < length (rows X_train) ∧
  (12 ≤ length (target data_set) ↔ 5 ≤ length (rows X_train)).
Proof.
  intros Hlen Hsplit.
  pose proof (split_cell_nonempty_train _ _ _ _ _ _ _ _ _ _ _ _ Hsplit) as Hne.
  apply split_cell_pairs in Hsplit as (_ & Hte & Hval & Htr & _).
  rewrite !n_test_of_33 in *. cbn [rows] in Hte, Hval, Htr.
  rewrite length_imap, Hlen in Hte, Hval, Htr. rewrite Hte in Hval, Htr.
  rewrite Hval in Htr.
  pose proof (train_rows_33 (length (target data_set))) as [H12 Hlt]. cbv zeta in *.
  split; [done|]. rewrite Htr. split; [done|].
  intros Hfive. destruct (decide (12 ≤ length (target data_set))); [done|].
  specialize (Hlt ltac:(lia)). lia.
Qed.

(** A run on a dataset of at least twelve rows returns: the files are those
    of the frames that the split cell returned, and the hyperparameters are
    set from the training frame. *)
Lemma notebook_run_returns data_set threshold model_selected g h :
  length (feature_names data_set) = n_columns (data data_set) →
  length (array_rows (data data_set)) = length (target data_set) →
  12 ≤ length (target data_set) →
  ∃ X_train X_val X_test Y_train Y_val Y_test g1,
    notebook_split_cell
      {| columns := Name <$> feature_names data_set;
         rows := imap pair (array_rows (data data_set)) |}
      (DataFrame_of_vector (target data_set)) g
    = (Return (X_train, X_val, X_test, Y_train, Y_val, Y_test), g1) ∧
    rows X_train ++ rows X_val ++ rows X_test
      ≡ₚ imap pair (array_rows (data data_set)) ∧
    rows Y_train ++ rows Y_val ++ rows Y_test
      ≡ₚ imap (λ i y, (i, [y])) (target data_set) ∧
    (notebook_run format_num data_set threshold model_selected (g, h)).1
    = Return (write_csv_cell format_num X_train Y_train X_val Y_val,
              set_hyperparameters_cell model_selected X_train ∅).
Proof.
  intros Hnames Hlen Htwelve. unfold notebook_run, mbind, state_bind.
  destruct (load_cell_run_cases data_set g h)
    as [(_ & X & Y & h0 & -> & HX & HY)|(Hn & _)]; [|done].
  set (X_ := {| columns := Name <$> feature_names data_set;
                rows := imap pair (array_rows (data data_set)) |}) in *.
  set (Y_ := DataFrame_of_vector (target data_set)) in *.
  destruct (split_cell_cases (33 # 100) (33 # 100) X_ Y_ g)
    as [(_ & Xtr & Xval & Xte & Ytr & Yval & Yte & g1 & Hsplit & HpX & HpY)|(Hn & _)].
  2:{ exfalso. apply Hn. apply cell_splittable_33.
      - unfold X_, Y_, DataFrame_of_vector. simpl. by rewrite !length_imap.
      - unfold X_. simpl. rewrite length_imap. lia. }
  exists Xtr, Xval, Xte, Ytr, Yval, Yte, g1.
  split; [exact Hsplit|]. split; [exact HpX|]. split; [exact HpY|].
  destruct (split_cell_run_cases X Y X_ Y_ g h0 HX HY)
    as [(A & B & C & D & E & F & g1' & h1 & lA & lB & lC & lD & lE & lF
         & Hsplit' & -> & HA & HB & HC & HD & HE)|((g1' & Hraise) & _)];
    [|by rewrite Hraise in Hsplit].
  rewrite Hsplit' in Hsplit. injection Hsplit as -> -> -> -> -> -> ->.
  destruct (loaded_split_sizes data_set g _ _ _ _ _ _ _ Hlen Hsplit') as [Hne Hfive].
  destruct (proj1 (scoring_cells_run_cases lA Xtr g1 h1 HA Hne)
              (proj1 Hfive Htwelve)) as (g2 & ->).
  unfold on_heap. cbn [fst snd].
  destruct (prune_cell_run (feature_importances_xgboost_cell Xtr) threshold
              lA lB lC h1 _ _ _ HA HB HC) as (h2 & -> & F2). cbn [fst snd].
  by rewrite (training_cells_run_returns model_selected lA lB lD lE Xtr Xval Ytr Yval
                g2 h2 (F2 _ _ HA) (F2 _ _ HB) (F2 _ _ HD) (F2 _ _ HE)).
Qed.

Lemma label_first_fields (ys xs : list (nat * list num)) m :
  Forall (λ y, length y.2 = 1) ys → Forall (λ x, length x.2 = m) xs →
  Forall (λ line, length (split_on comma line) = S m)
    (zip_with (λ y x, csv_line format_num (y.2 ++ x.2)) ys xs).
Proof.
  intros Hys. revert xs. induction Hys as [|y ys Hy _ IH]; intros xs Hxs; [constructor|].
  destruct Hxs as [|x xs Hx Hxs]; [constructor|]. simpl. constructor; [|by apply IH].
  assert (y.2 ++ x.2 ≠ []) as Hne by (destruct (y.2); [done|done]).
  pose proof (read_csv_line format_num parse_num parse_format format_plain _ Hne) as Hr.
  apply length_mapM in Hr. rewrite Hr, length_app. lia.
Qed.




End notebook_run_lemmas.

(** ** The model and its hyperparameters *)

(** The assertion of the model cell passes for [xgboost] and
    [linear-learner] and for no other name.  For a name that passed, exactly
    one of the two [if] statements of the hyperparameter cell sets
    hyperparameters on the new estimator: [num_round] is set for [xgboost]
    only and [feature_dim] for [linear-learner] only.  For any other name
    neither does, and the estimator keeps the hyperparameters it had. *)
Theorem hyperparameters_of_the_selected_model {N : Number} (model_selected : string)
    (X_train : DataFrame) :
  (select_model_cell model_selected = Passed ↔
   model_selected = "xgboost" ∨ model_selected = "linear-learner") ∧
  (select_model_cell model_selected = Passed →
   set_hyperparameters_cell model_selected X_train ∅ ≠ ∅ ∧
   (is_Some (set_hyperparameters_cell model_selected X_train ∅ !! "num_round")
    ↔ model_selected = "xgboost") ∧
   (is_Some (set_hyperparameters_cell model_selected X_train ∅ !! "feature_dim")
    ↔ model_selected = "linear-learner")) ∧
  (select_model_cell model_selected = AssertionError →
   ∀ model, set_hyperparameters_cell model_selected X_train model = model).
Proof.
  unfold select_model_cell, py_assert, models.
  case_bool_decide as Hin; rewrite !elem_of_cons, elem_of_nil in Hin.
  - assert (model_selected = "xgboost" ∨ model_selected = "linear-learner") as Hm
      by tauto.
    split_and!; [done| |done]. intros _. destruct Hm as [-> | ->].
    + split_and!.
      * intros H. apply (f_equal (lookup "num_round")) in H. by vm_compute in H.
      * split; [done|]. intros _. eexists. by vm_compute.
      * split; [|done]. intros [v Hv]. by vm_compute in Hv.
    + unfold set_hyperparameters_cell, set_hyperparameters. simpl. split_and!.
      * intros H. apply (f_equal (lookup "mini_batch_size")) in H.
        by rewrite lookup_insert_eq in H.
      * split; [|done]. intros [v Hv].
        rewrite !lookup_insert_ne in Hv by done. by rewrite lookup_empty in Hv.
      * split; [done|]. intros _.
        rewrite lookup_insert_ne by done. rewrite lookup_insert_ne by done.
        rewrite lookup_insert_eq. eauto.
  - assert (model_selected ≠ "xgboost" ∧ model_selected ≠ "linear-learner")
      as [Hx Hl] by tauto.
    split_and!; [split; [done|tauto]|done|].
    intros _ model. unfold set_hyperparameters_cell.
    apply String.eqb_neq in Hx, Hl. by rewrite Hx, Hl.
Qed.

(** ** The second notebook *)

(** No field of a split holds the separator; a split is never empty; and
    joining the fields with the separator gives the string back. *)
Lemma split_on_fields sep s :
  Forall (λ field, mentions sep field = false) (split_on sep s).
Proof.
  induction s as [|c s IH]; simpl; [by repeat constructor|].
  destruct (Ascii.eqb c sep) eqn:E; [by constructor|].
  destruct (split_on sep s) as [|field fields].
  - constructor; [|constructor]. simpl. by rewrite E.
  - inversion IH as [|? ? Hf Hfs]; subst. constructor; [|done]. simpl. by rewrite E.
Qed.

Lemma split_on_nonempty sep s : split_on sep s ≠ [].
Proof.
  destruct s as [|c s]; simpl; [done|].
  destruct (Ascii.eqb c sep); [done|]. by destruct (split_on sep s).
Qed.

Lemma join_split_on sep s : join (String sep "") (split_on sep s) = s.
Proof.
  induction s as [|c s IH]; [done|].
  pose proof (split_on_nonempty sep s) as Hne. cbn [split_on].
  destruct (Ascii.eqb c sep) eqn:E.
  - apply Ascii.eqb_eq in E as ->.
    destruct (split_on sep s) as [|field fields]; [done|].
    change (join (String sep "") ("" :: field :: fields))
      with (String sep (join (String sep "") (field :: fields))).
    by rewrite IH.
  - destruct (split_on sep s) as [|field fields]; [done|].
    destruct fields as [|field' fields]; cbn [join] in *; by rewrite <- IH.
Qed.

(** The cell of the second notebook never raises [IndexError]: [split]
    returns at least one segment.  The name it prints is the last segment
    of the role, it holds no slash, joining the segments with slashes gives
    the role back, and a role without a slash is printed whole. *)
Theorem printed_role_name_is_the_last_segment (role : string) :
  ∃ path name,
    role_name role = Return (path ++ [name]) ∧
    printed_role_name role = Return name ∧
    mentions "/" name = false ∧
    join "/" (path ++ [name]) = role ∧
    (mentions "/" role = false → path = [] ∧ name = role).
Proof.
  unfold printed_role_name, role_name, last_item. simpl.
  destruct (last (split_on "/" role)) as [name|] eqn:El.
  - apply last_Some in El as [path Hp]. exists path, name. rewrite Hp.
    split_and!; [done|done| | |].
    + pose proof (split_on_fields "/" role) as Hf. rewrite Hp in Hf.
      apply Forall_app in Hf as [_ Hf]. by inversion Hf.
    + rewrite <- Hp. apply join_split_on.
    + intros Hno. rewrite (split_on_plain _ _ Hno) in Hp.
      destruct path as [|? [|? ?]]; simpl in Hp; [by injection Hp as <-|done..].
  - exfalso. apply last_None in El. by apply (split_on_nonempty "/" role).
Qed.

Lemma parse_format_Z z : parse_Z (format_Z z) = Some z.
Proof.
  unfold parse_Z, format_Z. rewrite NilZero.isi.
  - simpl. by rewrite DecimalZ.of_to.
  - destruct z; simpl; [done| |done]. intros [= H]. by apply Unsigned.to_uint_nonnil in H.
  - destruct z; simpl; [done..|]. intros [= H]. by apply Unsigned.to_uint_nonnil in H.
Qed.

Lemma string_of_uint_plain d :
  mentions comma (NilEmpty.string_of_uint d) = false ∧
  mentions newline (NilEmpty.string_of_uint d) = false.
Proof. unfold comma, newline. induction d; simpl; done. Qed.

Lemma format_Z_plain z :
  mentions comma (format_Z z) = false ∧ mentions newline (format_Z z) = false.
Proof.
  assert (∀ d, mentions comma (NilZero.string_of_uint d) = false ∧
               mentions newline (NilZero.string_of_uint d) = false) as Hd.
  { intros d. unfold NilZero.string_of_uint.
    destruct d; try done; apply string_of_uint_plain. }
  unfold format_Z. destruct (Z.to_int z) as [d|d]; simpl; [apply Hd|].
  destruct (Hd d) as [-> ->]. done.
Qed.

(** The files of a training split of two rows and a validation split of one
    row: [6,30,-40] and [5,10,20], and [-1,0,7]. *)
Lemma csv_label_first_round_trip_z :
  write_csv_cell (N:=Z_number) format_Z X_train_z Y_train_z X_val_z Y_val_z
    = Some (String.concat (String newline "") ["6,30,-40"; "5,10,20"; ""],
            String.concat (String newline "") ["-1,0,7"; ""]) ∧
  read_label_first (N:=Z_number) parse_Z
    (String.concat (String newline "") ["6,30,-40"; "5,10,20"; ""])
    = Some [(6, [30; -40]); (5, [10; 20])]%Z ∧
  ∃ train_csv validation_csv,
    write_csv_cell (N:=Z_number) format_Z X_train_z Y_train_z X_val_z Y_val_z
      = Some (train_csv, validation_csv) ∧
    written_label_first (N:=Z_number) format_Z parse_Z Y_train_z X_train_z train_csv ∧
    written_label_first (N:=Z_number) format_Z parse_Z Y_val_z X_val_z validation_csv.
Proof.
  split; [by vm_compute|]. split; [by vm_compute|].
  apply (csv_label_first_round_trip (N:=Z_number) format_Z parse_Z
           parse_format_Z format_Z_plain X_train_z Y_train_z X_val_z Y_val_z);
    try reflexivity; repeat constructor.
Defined.

Lemma split_outputs_written_label_first_z :
  ∃ X_train X_val X_test Y_train Y_val Y_test g',
    notebook_split_cell (G:=counting_generator) X3z Y3z 0
      = (Return (X_train, X_val, X_test, Y_train, Y_val, Y_test), g') ∧
    ∃ train_csv validation_csv,
      write_csv_cell (N:=Z_number) format_Z X_train Y_train X_val Y_val
        = Some (train_csv, validation_csv) ∧
      written_label_first (N:=Z_number) format_Z parse_Z Y_train X_train train_csv ∧
      written_label_first (N:=Z_number) format_Z parse_Z Y_val X_val validation_csv.
Proof.
  eexists _, _, _, _, _, _, _. split; [by vm_compute|].
  eapply (split_outputs_written_label_first (N:=Z_number) (G:=counting_generator)
            (GL:=counting_generator_laws) format_Z parse_Z parse_format_Z format_Z_plain
            (33 # 100) (33 # 100) X3z Y3z 0).
  - reflexivity.
  - repeat constructor.
  - by vm_compute.
Defined.

(** A run on three rows of whole numbers with the threshold [1000], above
    every score: both features are still in both files. *)
Lemma notebook_files_ignore_threshold_z :
  notebook_split_cell (G:=counting_generator) X3z Y3z 0
    = (Return (@Build_DataFrame Z_number [a; b] [(1, [30; -40]%Z)], X_val_z,
               @Build_DataFrame Z_number [a; b] [(0, [10; 20]%Z)],
               @Build_DataFrame Z_number [Ordinal 0] [(1, [6]%Z)], Y_val_z,
               @Build_DataFrame Z_number [Ordinal 0] [(0, [5]%Z)]), 2) ∧
  (notebook_cells (L:=numbering_learners) format_Z X3z Y3z 1000%Z (0, ∅)).1
    = Return (write_csv_cell (N:=Z_number) format_Z
                (@Build_DataFrame Z_number [a; b] [(1, [30; -40]%Z)])
                (@Build_DataFrame Z_number [Ordinal 0] [(1, [6]%Z)])
                X_val_z Y_val_z) ∧
  write_csv_cell (N:=Z_number) format_Z
    (@Build_DataFrame Z_number [a; b] [(1, [30; -40]%Z)])
    (@Build_DataFrame Z_number [Ordinal 0] [(1, [6]%Z)]) X_val_z Y_val_z
    = Some (String.concat (String newline "") ["6,30,-40"; ""],
            String.concat (String newline "") ["-1,0,7"; ""]).
Proof.
  split; [by vm_compute|]. split; [|by vm_compute].
  apply (notebook_files_ignore_threshold (L:=numbering_learners) format_Z
           X3z Y3z 1000%Z 0 ∅ _ _
           (@Build_DataFrame Z_number [a; b] [(0, [10; 20]%Z)]) _ _
           (@Build_DataFrame Z_number [Ordinal 0] [(0, [5]%Z)]) 2).
  by vm_compute.
Defined.

(** In the example [sagemaker] is the third distribution; among the first
    two there is none. *)
Lemma get_sagemaker_version_first_installed_example :
  get_sagemaker_version working_set_example = Str "sagemaker==2.15.0" ∧
  (get_sagemaker_version (take 2 working_set_example) = Int (-1) ↔
   ∀ i, i ∈ take 2 working_set_example → key i ≠ "sagemaker").
Proof.
  split.
  - apply (proj2 (get_sagemaker_version_first_installed working_set_example)
             (take 2 working_set_example)
             {| key := "sagemaker"; version := "2.15.0" |}
             (drop 3 working_set_example)); [reflexivity| |reflexivity].
    intros j Hj. simpl in Hj. rewrite !elem_of_cons, elem_of_nil in Hj.
    by destruct Hj as [->|[->|[]]].
  - apply (proj1 (get_sagemaker_version_first_installed (take 2 working_set_example))).
Defined.

(** [california] is a dataset of the notebook, [boston] is not. *)
Lemma chosen_data_set_is_loadable_california :
  choose_data_set_cell "california" = Passed ∧
  data_set_expression "california" = Return "fetch_california_housing()" ∧
  choose_data_set_cell "boston" = AssertionError ∧
  data_set_expression "boston" = Raise KeyError.
Proof.
  assert (choose_data_set_cell "california" = Passed) as Hc
    by (apply (chosen_data_set_is_loadable "california"); by right).
  assert (choose_data_set_cell "boston" = AssertionError) as Hb by by vm_compute.
  split_and!; [exact Hc | by vm_compute | exact Hb |].
  exact (proj2 (proj2 (chosen_data_set_is_loadable "boston")) Hb).
Defined.




(** The hyperparameters of the linear learner for a frame of two columns. *)
Lemma hyperparameters_of_the_selected_model_linear :
  select_model_cell "linear-learner" = Passed ∧
  set_hyperparameters_cell (N:=Z_number) "linear-learner" Xz ∅
    = {[ "feature_dim" := HInt 2; "predictor_type" := HStr "regressor";
         "mini_batch_size" := HInt 100 ]} ∧
  set_hyperparameters_cell (N:=Z_number) "linear-learner" Xz ∅ ≠ ∅ ∧
  (is_Some (set_hyperparameters_cell (N:=Z_number) "linear-learner" Xz ∅ !! "num_round")
   ↔ "linear-learner" = "xgboost") ∧
  (is_Some (set_hyperparameters_cell (N:=Z_number) "linear-learner" Xz ∅ !! "feature_dim")
   ↔ "linear-learner" = "linear-learner").
Proof.
  assert (select_model_cell "linear-learner" = Passed) as Hp
    by (apply (hyperparameters_of_the_selected_model (N:=Z_number) "linear-learner" Xz);
        by right).
  split; [exact Hp|]. split; [by vm_compute|].
  exact (proj1 (proj2 (hyperparameters_of_the_selected_model (N:=Z_number)
                         "linear-learner" Xz)) Hp).
Defined.

(** The name of a role under a path. *)
Lemma printed_role_name_is_the_last_segment_arn :
  printed_role_name "arn:aws:iam::123456789012:role/service-role/Notebook"
    = Return "Notebook" ∧
  ∃ path name,
    role_name "arn:aws:iam::123456789012:role/service-role/Notebook"
      = Return (path ++ [name]) ∧
    printed_role_name "arn:aws:iam::123456789012:role/service-role/Notebook"
      = Return name ∧
    mentions "/" name = false ∧
    join "/" (path ++ [name])
      = "arn:aws:iam::123456789012:role/service-role/Notebook" ∧
    (mentions "/" "arn:aws:iam::123456789012:role/service-role/Notebook" = false →
     path = [] ∧ name = "arn:aws:iam::123456789012:role/service-role/Notebook").
Proof.
  split; [reflexivity|].
  apply (printed_role_name_is_the_last_segment
           "arn:aws:iam::123456789012:role/service-role/Notebook").
Defined.
